(** * PH_GH_Component_IO: input cleaning helpers and validator descriptors

    A shallow embedding of [ph_gh_component_io/input_tools.py] and
    [ph_gh_component_io/validators.py] and the properties their
    specification states about them.

    Python values are an inductive type, a Python [float] is a binary64
    primitive float, an exception is an [Error] of Corelib's [result], and a
    dictionary (the instance [__dict__], the Grasshopper [sticky]) is a
    [gmap].  What the two files import from outside the repository
    ([ph_units], [honeybee.typing], the parts of the interpreter that print
    and parse floating point numbers) is an interface the development is
    parametric in. *)

From stdpp Require Import base gmap strings list pretty.
From Stdlib Require Import ZArith Ascii Floats.

Set Warnings "-inexact-float".
Open Scope Z_scope.

(** ** The Python fragment the two files run on *)

Module Py.

(** The exception classes the two files raise or catch; [Exception_] is a
    bare [Exception(msg)].  Messages are not modelled. *)
Inductive exn : Type :=
| ValueError
| TypeError
| OverflowError
| IndexError
| KeyError
| AttributeError
| Exception_.

#[global] Instance exn_eq_dec : EqDecision exn.
Proof. solve_decision. Defined.

(** A computation that returns an [A] or raises. *)
Abbreviation py A := (result A exn).

Definition raise {A : Type} (e : exn) : py A := Error e.

Definition bind {A B : Type} (c : py A) (k : A -> py B) : py B :=
  match c with
  | Ok a => k a
  | Error e => Error e
  end.

(** [try: c  except: h] *)
Definition try_except_all {A : Type} (c : py A) (h : py A) : py A :=
  match c with
  | Ok a => Ok a
  | Error _ => h
  end.

(** [try: c  except cls1: h1  except cls2: h2 ...]: the first clause whose
    class is the raised one runs; what a handler raises is not handled. *)
Fixpoint handle {A : Type} (e : exn) (clauses : list (exn * py A)) : py A :=
  match clauses with
  | [] => Error e
  | (cls, h) :: clauses' => if decide (e = cls) then h else handle e clauses'
  end.

Definition try_except {A : Type} (c : py A) (clauses : list (exn * py A)) : py A :=
  match c with
  | Ok a => Ok a
  | Error e => handle e clauses
  end.

(** The scalar values a component input can hold. *)
Inductive value : Type :=
| VNone
| VBool (b : bool)
| VInt (z : Z)
| VFloat (f : float)
| VStr (s : string).

Definition is_None (v : value) : bool :=
  match v with
  | VNone => true
  | _ => false
  end.

(** [bool(v)] *)
Definition truthy (v : value) : bool :=
  match v with
  | VNone => false
  | VBool b => b
  | VInt z => negb (z =? 0)
  | VFloat f => negb (f =? 0)%float
  | VStr s => negb (String.eqb s "")
  end.

(** *** Characters and digit strings *)

Definition is_digit (c : ascii) : bool :=
  let n := Z.of_nat (nat_of_ascii c) in (48 <=? n) && (n <=? 57).

Definition digit_val (c : ascii) : Z := Z.of_nat (nat_of_ascii c) - 48.

(** The whitespace [str.strip()] and [int()] remove from a byte string:
    space, tab, line feed, vertical tab, form feed, carriage return. *)
Definition is_space (c : ascii) : bool :=
  let n := Z.of_nat (nat_of_ascii c) in (n =? 32) || ((9 <=? n) && (n <=? 13)).

Fixpoint lstrip (s : string) : string :=
  match s with
  | String c s' => if is_space c then lstrip s' else s
  | EmptyString => EmptyString
  end.

Fixpoint rev_onto (s acc : string) : string :=
  match s with
  | String c s' => rev_onto s' (String c acc)
  | EmptyString => acc
  end.

Definition rev_string (s : string) : string := rev_onto s EmptyString.

Definition rstrip (s : string) : string := rev_string (lstrip (rev_string s)).

(** [s.strip()] *)
Definition strip (s : string) : string := rstrip (lstrip s).

(** [s.replace(a, b)] for single characters. *)
Fixpoint replace_char (a b : ascii) (s : string) : string :=
  match s with
  | String c s' => String (if Ascii.eqb c a then b else c) (replace_char a b s')
  | EmptyString => EmptyString
  end.

(** The value of a string of decimal digits, most significant first;
    [None] when a character is not a digit. *)
Fixpoint int_of_digits (acc : Z) (s : string) : option Z :=
  match s with
  | String c s' =>
      if is_digit c then int_of_digits (10 * acc + digit_val c) s' else None
  | EmptyString => Some acc
  end.

(** [int(s)] for a string, base 10 (Python 2.7): surrounding whitespace,
    an optional sign, then one or more decimal digits. *)
Definition int_of_string (s : string) : option Z :=
  match strip s with
  | EmptyString => None
  | String c ds =>
      if Ascii.eqb c "-" then
        match ds with
        | EmptyString => None
        | _ => Z.opp <$> int_of_digits 0 ds
        end
      else if Ascii.eqb c "+" then
        match ds with
        | EmptyString => None
        | _ => int_of_digits 0 ds
        end
      else int_of_digits 0 (String c ds)
  end.

(** *** Numbers *)

(** An integer as the nearest binary64 (ties to even). *)
Definition float_of_Z (z : Z) : float :=
  SF2Prim (binary_normalize prec emax z 0 false).

(** A finite binary64 truncated towards zero. *)
Definition trunc_float (f : float) : py Z :=
  match Prim2SF f with
  | S754_nan => raise ValueError
  | S754_infinity _ => raise OverflowError
  | S754_zero _ => Ok 0
  | S754_finite s m e => Ok (cond_Zopp s (Z.shiftl (Zpos m) e))
  end.

(** What the interpreter does outside the two files: reading a float from
    a string ([float(s)]) and printing one ([str(f)]). *)
Class Runtime : Type := {
  float_of_string : string -> option float;
  string_of_float : float -> string
}.

(** [int(v)] *)
Definition py_int (v : value) : py Z :=
  match v with
  | VNone => raise TypeError
  | VBool b => Ok (if b then 1 else 0)
  | VInt z => Ok z
  | VFloat f => trunc_float f
  | VStr s =>
      match int_of_string s with
      | Some z => Ok z
      | None => raise ValueError
      end
  end.

Section WithRuntime.
Context {rt : Runtime}.

(** [float(v)] *)
Definition py_float (v : value) : py float :=
  match v with
  | VNone => raise TypeError
  | VBool b => Ok (if b then 1 else 0)%float
  | VInt z =>
      let f := float_of_Z z in
      if is_infinity f then raise OverflowError else Ok f
  | VFloat f => Ok f
  | VStr s =>
      match float_of_string s with
      | Some f => Ok f
      | None => raise ValueError
      end
  end.

(** [str(v)] *)
Definition py_str (v : value) : string :=
  match v with
  | VNone => "None"
  | VBool b => if b then "True" else "False"
  | VInt z => pretty z
  | VFloat f => string_of_float f
  | VStr s => s
  end.
End WithRuntime.

(** [l[i]] on a list: a negative index counts from the end, an index
    outside [-len(l) .. len(l) - 1] raises [IndexError]. *)
Definition getitem {A : Type} (l : list A) (i : Z) : py A :=
  let n := Z.of_nat (length l) in
  let j := if i <? 0 then i + n else i in
  if (0 <=? j) && (j <? n) then
    match l !! Z.to_nat j with
    | Some x => Ok x
    | None => raise IndexError
    end
  else raise IndexError.

End Py.

Export Py.

Notation "'let*' x ':=' c 'in' k" := (Py.bind c (fun x => k))
  (at level 10, x name, c at level 200, k at level 200).

(** ** input_tools.py *)

Module InputTools.

(** [re.search(r"\d+", s).group(0)]: the leftmost longest run of digits,
    [None] when the string has no digit. *)
Fixpoint take_digits (s : string) : string :=
  match s with
  | String c s' => if is_digit c then String c (take_digits s') else EmptyString
  | EmptyString => EmptyString
  end.

Fixpoint re_search_digits (s : string) : option string :=
  match s with
  | String c s' =>
      if is_digit c then Some (String c (take_digits s')) else re_search_digits s'
  | EmptyString => None
  end.

Section WithRuntime.
Context {rt : Runtime}.

Definition input_to_int (_input_value _default : value) : py value :=
  if negb (truthy _input_value) then Ok _default
  else
    let result_ := re_search_digits (py_str _input_value) in
    try_except
      (match result_ with
       | None => raise ValueError
       | Some group0 => let* n := py_int (VStr group0) in Ok (VInt n)
       end)
      [ (ValueError, raise Exception_);
        (AttributeError, raise Exception_) ].
End WithRuntime.

(** [clean_get] and [cleaner_get] as their signatures type them, on a list
    and an integer index; [clean_get_any] and [cleaner_get_any] below take
    arguments of any type.  [_default=None]: the default and the result of
    [clean_get] are [Optional[T]]. *)
Definition clean_get {T : Type} (_list : list T) (_i : Z) (_default : option T)
  : py (option T) :=
  try_except
    (let* x := getitem _list _i in Ok (Some x))
    [ (IndexError,
        try_except
          (let* x := getitem _list 0 in Ok (Some x))
          [ (IndexError, Ok _default) ]) ].

Definition cleaner_get {T : Type} (_list : list T) (_i : Z) (_default : T) : py T :=
  try_except
    (getitem _list _i)
    [ (IndexError,
        try_except (getitem _list 0) [ (IndexError, Ok _default) ]) ].

(** *** memoize

    [sticky] is the one dictionary of the Grasshopper session.  [K] is the
    type of (hashable) positional argument tuples, [KW] of keyword
    arguments, [V] of return values.  The wrapped function may raise, and
    may read and change the rest of the session [W] and [sticky] itself.
    [calls] counts how often the wrapper has invoked it. *)
Section Memoize.
Context {K V KW W : Type} `{Countable K}.

Record host : Type := Host {
  sticky : gmap K V;
  env : W;
  calls : nat
}.

Definition function : Type := K -> KW -> gmap K V * W -> py V * (gmap K V * W).

(** [sticky[args]] *)
Definition dict_getitem (d : gmap K V) (k : K) : py V :=
  match d !! k with
  | Some v => Ok v
  | None => raise KeyError
  end.

(** The call of the wrapped function with the positional and keyword
    arguments of the wrapper. *)
Definition invoke (func : function) (args : K) (kwargs : KW) (h : host)
  : py V * host :=
  let '(r, (d, w)) := func args kwargs (sticky h, env h) in
  (r, {| sticky := d; env := w; calls := S (calls h) |}).

Definition wrapper (func : function) (args : K) (kwargs : KW) (h : host)
  : py V * host :=
  match dict_getitem (sticky h) args with
  | Ok rv => (Ok rv, h)
  | Error e =>
      if decide (e = KeyError) then
        let '(r, h1) := invoke func args kwargs h in
        match r with
        | Ok rv =>
            (Ok rv,
             {| sticky := <[args := rv]> (sticky h1);
                env := env h1; calls := calls h1 |})
        | Error e' => (Error e', h1)
        end
      else (Error e, h)
  end.

Definition memoize (func : function) : K -> KW -> host -> py V * host :=
  wrapper func.
End Memoize.

End InputTools.

Export InputTools.

(** ** validators.py *)

Module Validators.

(** [ph_units]: [parser.parse_input] splits a string into a magnitude and
    an optional unit token, [converter.convert] converts a magnitude from
    one unit to another.  Both may raise. *)
Class PhUnits : Type := {
  parse_input : string -> py (value * option string);
  convert : float -> string -> string -> py float
}.

(** [honeybee.typing] *)
Class Honeybee : Type := {
  clean_and_id_ep_string : value -> py string;
  clean_ep_string : string -> py string
}.

(** The subclasses of [Validated]. *)
Inductive validator : Type :=
| NotNone
| HBName
| IntegerNonZero
| IntegerPositiveValueOrZero
| Float
| FloatNonZero
| FloatPositiveValue
| FloatPercentage
| FloatMax24
| UnitM
| UnitM2
| UnitMM
| UnitW_MK
| UnitW_M2K
| UnitW_K
| UnitDeltaC
| UnitDegreeC
| UnitMeterPerSecond
| UnitWH_M3
| UnitKWH
| UnitKWH_M2
| UnitW_M2
| UnitM3_S
| UnitKW
| UnitW
| UnitKG_M2
| UnitCost_M2
| UnitCost_KWH.

#[global] Instance validator_eq_dec : EqDecision validator.
Proof. solve_decision. Defined.

(** A descriptor object: its class, and the two attributes [__init__]
    sets that validation reads.  The extra keyword arguments of [__init__]
    are not modelled: a descriptor here is one built from [storage_name]
    and [default] alone, so that [self.tolerance] is the tolerance its
    class declares. *)
Record Validated : Type := {
  cls : validator;
  storage_name : string;
  default_value : value
}.

(** [input_units or unit] *)
Definition units_or (input_units : option string) (unit_ : string) : string :=
  match input_units with
  | Some u => if String.eqb u "" then unit_ else u
  | None => unit_
  end.

Section WithLibraries.
Context {rt : Runtime} {units : PhUnits} {hb : Honeybee}.

Definition NotNone_validate (self : Validated) (name : string)
  (new_value old_value : value) : py value :=
  if negb (is_None new_value) then Ok new_value
  else if negb (is_None old_value) then Ok old_value
  else raise ValueError.

Definition HBName_validate (self : Validated) (name : string)
  (new_value old_value : value) : py value :=
  if is_None new_value then
    try_except_all
      (let* s := clean_and_id_ep_string (default_value self) in Ok (VStr s))
      (Ok old_value)
  else
    let new_value := replace_char " " "_" (strip (py_str new_value)) in
    let* new_value := clean_ep_string new_value in
    if String.eqb new_value "" then raise ValueError
    else Ok (VStr new_value).

Definition IntegerNonZero_validate (self : Validated) (name : string)
  (new_value old_value : value) : py value :=
  if is_None new_value then
    try_except_all
      (let* n := py_int (default_value self) in Ok (VInt n))
      (Ok old_value)
  else
    let* new_value := try_except_all (py_int new_value) (raise ValueError) in
    if new_value <? 1 then raise ValueError
    else Ok (VInt new_value).

Definition IntegerPositiveValueOrZero_validate (self : Validated) (name : string)
  (new_value old_value : value) : py value :=
  if is_None new_value then
    try_except_all
      (let* n := py_int (default_value self) in Ok (VInt n))
      (Ok old_value)
  else
    let* new_value := try_except_all (py_int new_value) (raise ValueError) in
    if new_value <? 0 then raise ValueError
    else Ok (VInt new_value).

Definition Float_validate (self : Validated) (name : string)
  (new_value old_value : value) : py value :=
  if is_None new_value then
    try_except_all
      (let* f := py_float (default_value self) in Ok (VFloat f))
      (Ok old_value)
  else
    let* new_value := try_except_all (py_float new_value) (raise ValueError) in
    Ok (VFloat new_value).

Definition FloatNonZero_tolerance : float := 0.0001.

Definition FloatNonZero_validate (self : Validated) (name : string)
  (new_value old_value : value) : py value :=
  if is_None new_value then
    try_except_all
      (let* f := py_float (default_value self) in Ok (VFloat f))
      (Ok old_value)
  else
    let* new_value := try_except_all (py_float new_value) (raise ValueError) in
    if (new_value - 0.0 <? FloatNonZero_tolerance)%float then raise ValueError
    else Ok (VFloat new_value).

Definition FloatPositiveValue_validate (self : Validated) (name : string)
  (new_value old_value : value) : py value :=
  if is_None new_value then
    try_except_all
      (let* f := py_float (default_value self) in Ok (VFloat f))
      (Ok old_value)
  else
    let* new_value := try_except_all (py_float new_value) (raise ValueError) in
    if (new_value <? 0)%float then raise ValueError
    else Ok (VFloat new_value).

Definition FloatPercentage_validate (self : Validated) (name : string)
  (new_value old_value : value) : py value :=
  if is_None new_value then
    try_except_all
      (let* f := py_float (default_value self) in Ok (VFloat f))
      (Ok old_value)
  else
    let* new_value := try_except_all (py_float new_value) (raise ValueError) in
    let new_value :=
      if ((1.0 <? new_value) && (new_value <? 100.0))%float
      then (new_value / 100)%float
      else new_value in
    if negb ((0.0 <=? new_value) && (new_value <=? 1.0))%float
    then raise ValueError
    else Ok (VFloat new_value).

Definition FloatMax24_tolerance : float := (-0.0001)%float.

Definition FloatMax24_validate (self : Validated) (name : string)
  (new_value old_value : value) : py value :=
  if is_None new_value then
    try_except_all
      (let* f := py_float (default_value self) in Ok (VFloat f))
      (Ok old_value)
  else
    let* new_value := try_except_all (py_float new_value) (raise ValueError) in
    if (24.0 - new_value <? FloatMax24_tolerance)%float then raise ValueError
    else Ok (VFloat new_value).

(** The unit validators differ in the unit string only, and come in
    three shapes.  The first, [UnitM] and the like: parse, coerce the
    magnitude, convert, return.  What they print is not modelled. *)
Definition Unit_validate (unit_ : string) (self : Validated) (name : string)
  (new_value old_value : value) : py value :=
  if is_None new_value then
    try_except_all
      (let* f := py_float (default_value self) in Ok (VFloat f))
      (Ok old_value)
  else
    let* parsed := parse_input (py_str new_value) in
    let '(input_value, input_units) := parsed in
    let* input_value := try_except_all (py_float input_value) (raise ValueError) in
    let* result_ := convert input_value (units_or input_units unit_) unit_ in
    Ok (VFloat result_).

(** The second, [UnitW_M2K] and the like: the same, and then
    [if result and result < 0.0: raise]. *)
Definition UnitPositive_validate (unit_ : string) (self : Validated) (name : string)
  (new_value old_value : value) : py value :=
  if is_None new_value then
    try_except_all
      (let* f := py_float (default_value self) in Ok (VFloat f))
      (Ok old_value)
  else
    let* parsed := parse_input (py_str new_value) in
    let '(input_value, input_units) := parsed in
    let* input_value := try_except_all (py_float input_value) (raise ValueError) in
    let* result_ := convert input_value (units_or input_units unit_) unit_ in
    if truthy (VFloat result_) && (result_ <? 0.0)%float then raise ValueError
    else Ok (VFloat result_).

(** The classes of the first two shapes, in the order of the file. *)
Definition UnitM_validate := Unit_validate "M".
Definition UnitM2_validate := Unit_validate "M2".
Definition UnitMM_validate := Unit_validate "MM".
Definition UnitW_MK_validate := Unit_validate "W/MK".
Definition UnitW_M2K_validate := UnitPositive_validate "W/M2K".
Definition UnitW_K_validate := UnitPositive_validate "W/K".
Definition UnitDeltaC_validate := Unit_validate "DELTA-C".
Definition UnitDegreeC_validate := Unit_validate "C".
Definition UnitMeterPerSecond_validate := Unit_validate "M/S".
Definition UnitWH_M3_validate := UnitPositive_validate "WH/M3".
Definition UnitKWH_validate := UnitPositive_validate "KWH".
Definition UnitKWH_M2_validate := UnitPositive_validate "KWH/M2".
Definition UnitW_M2_validate := UnitPositive_validate "W/M2".
Definition UnitM3_S_validate := UnitPositive_validate "M3/S".
Definition UnitKW_validate := UnitPositive_validate "KW".
Definition UnitW_validate := UnitPositive_validate "W".
Definition UnitKG_M2_validate := Unit_validate "KG/M2".
Definition UnitCost_M2_validate := Unit_validate "COST/M2".

(** The third, [UnitCost_KWH]: its body ends after the conversion is
    printed, without a [return], so a call that gets there returns
    [None]. *)
Definition UnitCost_KWH_validate (self : Validated) (name : string)
  (new_value old_value : value) : py value :=
  if is_None new_value then
    try_except_all
      (let* f := py_float (default_value self) in Ok (VFloat f))
      (Ok old_value)
  else
    let* parsed := parse_input (py_str new_value) in
    let '(input_value, input_units) := parsed in
    let* input_value := try_except_all (py_float input_value) (raise ValueError) in
    let* result_ := convert input_value (units_or input_units "COST/KWH") "COST/KWH" in
    Ok VNone.

(** [self.validate(name, new_value, old_value)], by the class of [self]. *)
Definition validate (self : Validated) : string -> value -> value -> py value :=
  match cls self with
  | NotNone => NotNone_validate self
  | HBName => HBName_validate self
  | IntegerNonZero => IntegerNonZero_validate self
  | IntegerPositiveValueOrZero => IntegerPositiveValueOrZero_validate self
  | Float => Float_validate self
  | FloatNonZero => FloatNonZero_validate self
  | FloatPositiveValue => FloatPositiveValue_validate self
  | FloatPercentage => FloatPercentage_validate self
  | FloatMax24 => FloatMax24_validate self
  | UnitM => UnitM_validate self
  | UnitM2 => UnitM2_validate self
  | UnitMM => UnitMM_validate self
  | UnitW_MK => UnitW_MK_validate self
  | UnitW_M2K => UnitW_M2K_validate self
  | UnitW_K => UnitW_K_validate self
  | UnitDeltaC => UnitDeltaC_validate self
  | UnitDegreeC => UnitDegreeC_validate self
  | UnitMeterPerSecond => UnitMeterPerSecond_validate self
  | UnitWH_M3 => UnitWH_M3_validate self
  | UnitKWH => UnitKWH_validate self
  | UnitKWH_M2 => UnitKWH_M2_validate self
  | UnitW_M2 => UnitW_M2_validate self
  | UnitM3_S => UnitM3_S_validate self
  | UnitKW => UnitKW_validate self
  | UnitW => UnitW_validate self
  | UnitKG_M2 => UnitKG_M2_validate self
  | UnitCost_M2 => UnitCost_M2_validate self
  | UnitCost_KWH => UnitCost_KWH_validate self
  end.

(** [instance] is the [__dict__] of the object that owns the descriptor. *)
Definition __set__ (self : Validated) (instance : gmap string value) (value_ : value)
  : py (gmap string value) :=
  let* value_ :=
    validate self (storage_name self) value_
      (default VNone (instance !! storage_name self)) in
  Ok (<[storage_name self := value_]> instance).

Definition __get__ (self : Validated) (instance : gmap string value) : py value :=
  match instance !! storage_name self with
  | Some v => Ok v
  | None => raise KeyError
  end.
End WithLibraries.

End Validators.

Export Validators.

(** ** Vocabulary of the properties *)

(** Every character of [s] satisfies [p]. *)
Fixpoint all_chars (p : ascii -> bool) (s : string) : bool :=
  match s with
  | String c s' => p c && all_chars p s'
  | EmptyString => true
  end.

Definition no_digit (s : string) : bool := all_chars (fun c => negb (is_digit c)) s.

(** A non-empty string of decimal digits. *)
Definition digit_run (s : string) : bool :=
  negb (String.eqb s "") && all_chars is_digit s.

(** [s] does not go on with a digit. *)
Definition ends_run (s : string) : bool :=
  match s with
  | String c _ => negb (is_digit c)
  | EmptyString => true
  end.

(** The number a string of decimal digits denotes: each digit weighs ten
    to the number of digits after it. *)
Fixpoint decimal (s : string) : Z :=
  match s with
  | String c s' => digit_val c * 10 ^ Z.of_nat (String.length s') + decimal s'
  | EmptyString => 0
  end.

(** The default coercion a validator tries when the new value is [None];
    [NotNone] has none. *)
Definition default_coercion `{Runtime} `{Honeybee} (c : validator) (d : value)
  : option (py value) :=
  match c with
  | NotNone => None
  | HBName => Some (let* s := clean_and_id_ep_string d in Ok (VStr s))
  | IntegerNonZero | IntegerPositiveValueOrZero =>
      Some (let* n := py_int d in Ok (VInt n))
  | _ => Some (let* f := py_float d in Ok (VFloat f))
  end.

(** The unit a unit validator converts to. *)
Definition canonical_unit (c : validator) : option string :=
  match c with
  | UnitM => Some "M"
  | UnitM2 => Some "M2"
  | UnitMM => Some "MM"
  | UnitW_MK => Some "W/MK"
  | UnitW_M2K => Some "W/M2K"
  | UnitW_K => Some "W/K"
  | UnitDeltaC => Some "DELTA-C"
  | UnitDegreeC => Some "C"
  | UnitMeterPerSecond => Some "M/S"
  | UnitWH_M3 => Some "WH/M3"
  | UnitKWH => Some "KWH"
  | UnitKWH_M2 => Some "KWH/M2"
  | UnitW_M2 => Some "W/M2"
  | UnitM3_S => Some "M3/S"
  | UnitKW => Some "KW"
  | UnitW => Some "W"
  | UnitKG_M2 => Some "KG/M2"
  | UnitCost_M2 => Some "COST/M2"
  | UnitCost_KWH => Some "COST/KWH"
  | _ => None
  end.

(** The unit validators that refuse a negative result. *)
Definition sign_checked (c : validator) : bool :=
  match c with
  | UnitW_M2K | UnitW_K | UnitWH_M3 | UnitKWH | UnitKWH_M2
  | UnitW_M2 | UnitM3_S | UnitKW | UnitW => true
  | _ => false
  end.

(** The acceptance rule of each validator, on a stored value. *)
Definition satisfies_rule (c : validator) (v : value) : bool :=
  match c, v with
  | NotNone, _ => negb (is_None v)
  | HBName, VStr s => negb (String.eqb s "")
  | IntegerNonZero, VInt z => 1 <=? z
  | IntegerPositiveValueOrZero, VInt z => 0 <=? z
  | FloatNonZero, VFloat f => negb (f <? 0.0001)%float
  | FloatPositiveValue, VFloat f => negb (f <? 0)%float
  | FloatPercentage, VFloat f => ((0 <=? f) && (f <=? 1))%float
  | FloatMax24, VFloat f => negb (24 - f <? -0.0001)%float
  | (HBName | IntegerNonZero | IntegerPositiveValueOrZero
     | FloatNonZero | FloatPositiveValue | FloatPercentage | FloatMax24), _ => false
  | _, VFloat f => if sign_checked c then negb (f <? 0)%float else true
  | _, _ => false
  end.

(** ** Sample libraries

    One concrete runtime and one concrete pair of libraries, to run the
    validators on.  The runtime reads integer literals as floats and prints
    every float as a question mark; the parser splits a string at its first
    space; the converter knows feet and metres; the honeybee cleaners keep
    a string as it is. *)

Module Sample.

#[export] Instance runtime : Runtime := {|
  float_of_string s := float_of_Z <$> int_of_string s;
  string_of_float _ := "?"
|}.

Fixpoint split_at_space (s : string) : string * option string :=
  match s with
  | String c s' =>
      if Ascii.eqb c " " then (EmptyString, Some s')
      else let '(m, u) := split_at_space s' in (String c m, u)
  | EmptyString => (EmptyString, None)
  end.

#[export] Instance ph_units : PhUnits := {|
  parse_input s := let '(m, u) := split_at_space s in Ok (VStr m, u);
  convert v from to :=
    if String.eqb from to then Ok v
    else if String.eqb from "FT" && String.eqb to "M" then Ok (v * 0.3048)%float
    else raise Exception_
|}.

#[export] Instance honeybee : Honeybee := {|
  clean_and_id_ep_string v :=
    match v with
    | VStr s => Ok s
    | _ => raise TypeError
    end;
  clean_ep_string s := Ok s
|}.

(** A function whose result changes with every call: it returns the
    number of times it has run. *)
Definition counter : @function nat Z unit Z _ _ :=
  fun _ _ '(d, n) => (Ok n, (d, n + 1)).

(** A function of one positional argument and one keyword argument, the
    factor it multiplies the positional argument by. *)
Definition scale : @function Z Z Z unit _ _ :=
  fun x factor s => (Ok (x * factor), s).

End Sample.

(** ** input_tools.py: clean_tree_get

    The tree is a Grasshopper [DataTree]; its method [Branch] comes from the
    host and may raise anything. *)

Class DataTree (Tree B : Type) : Type := {
  Branch : Tree -> Z -> py B
}.

Definition clean_tree_get {Tree B : Type} `{DataTree Tree B}
  (_tree : Tree) (_i : Z) (_default : option B) : py (option B) :=
  try_except_all
    (let* b := Branch _tree _i in Ok (Some b))
    (try_except_all
       (let* b := Branch _tree 0 in Ok (Some b))
       (Ok _default)).

(** The validators that coerce their input with [int], and those that coerce
    it with [float] without parsing a unit. *)
Definition integer_class (c : validator) : bool :=
  match c with
  | IntegerNonZero | IntegerPositiveValueOrZero => true
  | _ => false
  end.

Definition float_class (c : validator) : bool :=
  match c with
  | Float | FloatNonZero | FloatPositiveValue | FloatPercentage | FloatMax24 => true
  | _ => false
  end.

(** A tree whose branches are the items of a list, and whose [Branch]
    refuses a negative path index with an exception of the host. *)
Module SampleTree.

#[export] Instance list_tree : DataTree (list (list Z)) (list Z) := {|
  Branch t i := if i <? 0 then raise Exception_ else getitem t i
|}.

End SampleTree.

(** ** input_tools.py on arguments of any type

    [_list[_i]] where [_list] is a list or [None] and [_i] is any value: an
    integer (or a boolean, which is one) indexes the list; any other index,
    and any index of [None], raises [TypeError]. *)

Definition is_index (i : value) : bool :=
  match i with
  | VInt _ | VBool _ => true
  | _ => false
  end.

Definition subscript {T : Type} (o : option (list T)) (i : value) : py T :=
  match o, i with
  | Some l, VInt z => getitem l z
  | Some l, VBool b => getitem l (if b then 1 else 0)
  | _, _ => raise TypeError
  end.

Definition clean_get_any {T : Type} (_list : option (list T)) (_i : value)
  (_default : option T) : py (option T) :=
  try_except
    (let* x := subscript _list _i in Ok (Some x))
    [ (IndexError,
        try_except
          (let* x := subscript _list (VInt 0) in Ok (Some x))
          [ (IndexError, Ok _default) ]) ].

Definition cleaner_get_any {T : Type} (_list : option (list T)) (_i : value)
  (_default : T) : py T :=
  try_except
    (subscript _list _i)
    [ (IndexError,
        try_except (subscript _list (VInt 0)) [ (IndexError, Ok _default) ]) ].

(** [memoize] on argument tuples of any type [A]: [key args] is the
    dictionary key of the tuple, and [None] when the tuple is unhashable (it
    holds a list, say), in which case [sticky[args]] raises [TypeError],
    which [except KeyError] does not catch. *)
Section MemoizeAny.
Context {A K V KW W : Type} `{Countable K}.

Definition function_any : Type := A -> KW -> gmap K V * W -> py V * (gmap K V * W).

Definition wrapper_any (key : A -> option K) (func : function_any)
  (args : A) (kwargs : KW) (h : host) : py V * host :=
  match key args with
  | None => (Error TypeError, h)
  | Some k => wrapper (fun _ => func args) k kwargs h
  end.

Definition memoize_any (key : A -> option K) (func : function_any)
  : A -> KW -> host -> py V * host :=
  wrapper_any key func.
End MemoizeAny.

(** Arguments that are a number, which is its own key, or a list of
    numbers, which is unhashable. *)
Module SampleArgs.

Inductive arg : Type :=
| Num (z : Z)
| Lst (l : list Z).

Definition key (a : arg) : option Z :=
  match a with
  | Num z => Some z
  | Lst _ => None
  end.

(** Raises for a negative number, doubles any other. *)
Definition double : @function_any arg Z Z unit unit _ _ :=
  fun a _ s =>
    match a with
    | Num z => if z <? 0 then (Error ValueError, s) else (Ok (2 * z), s)
    | Lst _ => (Ok 0, s)
    end.

End SampleArgs.

(** * Properties *)

(** ** Exceptions *)

Lemma bind_Ok {A B : Type} (c : py A) (k : A -> py B) (b : B) :
  Py.bind c k = Ok b -> exists a, c = Ok a /\ k a = Ok b.
Proof. destruct c as [a|e]; simpl; [eauto | discriminate]. Qed.

(** ** Indexing a list *)

Section Getitem.
Context {T : Type}.
Implicit Types (l : list T) (i : Z).

Lemma getitem_nonneg l i x :
  0 <= i -> l !! Z.to_nat i = Some x -> getitem l i = Ok x.
Proof.
  intros Hi Hx. unfold getitem.
  pose proof (lookup_lt_Some _ _ _ Hx) as Hlt.
  destruct (i <? 0) eqn:Hneg; [lia |].
  destruct (0 <=? i) eqn:H0; [| lia].
  destruct (i <? Z.of_nat (length l)) eqn:Hn; [| lia]. simpl.
  destruct (l !! Z.to_nat i) eqn:E.
  - congruence.
  - apply lookup_ge_None in E. lia.
Qed.

Lemma getitem_negative l i x :
  i < 0 -> 0 <= i + Z.of_nat (length l) ->
  l !! Z.to_nat (i + Z.of_nat (length l)) = Some x -> getitem l i = Ok x.
Proof.
  intros Hi Hn Hx. unfold getitem.
  destruct (i <? 0) eqn:Hneg; [| lia].
  destruct (0 <=? i + Z.of_nat (length l)) eqn:H0; [| lia].
  destruct (i + Z.of_nat (length l) <? Z.of_nat (length l)) eqn:H1; [| lia].
  simpl. now rewrite Hx.
Qed.

Lemma getitem_out_of_range l i :
  i < - Z.of_nat (length l) \/ Z.of_nat (length l) <= i ->
  getitem l i = Error IndexError.
Proof.
  intros Hi. unfold getitem.
  destruct (i <? 0) eqn:Hneg.
  - destruct (0 <=? i + Z.of_nat (length l)) eqn:H0; [| reflexivity].
    destruct (i + Z.of_nat (length l) <? Z.of_nat (length l)) eqn:H1; lia.
  - destruct (0 <=? i) eqn:H0; [| reflexivity].
    destruct (i <? Z.of_nat (length l)) eqn:H1; [lia | reflexivity].
Qed.

Lemma getitem_first l :
  getitem l 0 = match l with x :: _ => Ok x | [] => Error IndexError end.
Proof. destruct l; reflexivity. Qed.

Lemma lookup_in_range l (n : nat) : (n < length l)%nat -> exists x, l !! n = Some x.
Proof. intros Hn. apply lookup_lt_is_Some_2 in Hn. destruct Hn; eauto. Qed.
End Getitem.

(** ** clean_get and cleaner_get *)

Section CleanGet.
Context {T : Type}.
Implicit Types (l : list T) (i : Z) (d : T) (od : option T).

Lemma clean_get_hit l i od x : getitem l i = Ok x -> clean_get l i od = Ok (Some x).
Proof. intros E. unfold clean_get. now rewrite E. Qed.

Lemma cleaner_get_hit l i d x : getitem l i = Ok x -> cleaner_get l i d = Ok x.
Proof. intros E. unfold cleaner_get. now rewrite E. Qed.

Lemma clean_get_miss l i od :
  getitem l i = Error IndexError ->
  clean_get l i od = Ok (match l with x :: _ => Some x | [] => od end).
Proof.
  intros E. unfold clean_get. rewrite E, getitem_first. now destruct l.
Qed.

Lemma cleaner_get_miss l i d :
  getitem l i = Error IndexError ->
  cleaner_get l i d = Ok (match l with x :: _ => x | [] => d end).
Proof.
  intros E. unfold cleaner_get. rewrite E, getitem_first. now destruct l.
Qed.

Lemma getitem_raises_IndexError l i e : getitem l i = Error e -> e = IndexError.
Proof.
  unfold getitem.
  destruct ((0 <=? _) && _); [destruct (l !! _) |]; unfold raise; congruence.
Qed.

(** For every list and integer index: an index [0 <= i < len] returns the
    element at that index; an index outside [-len .. len - 1] returns
    element 0 of a non-empty list and the default of an empty one; and
    both variants return, whatever the list, the index and the default. *)
Theorem clean_get_contract l i d od :
  (0 <= i < Z.of_nat (length l) ->
     exists x, l !! Z.to_nat i = Some x /\
               clean_get l i od = Ok (Some x) /\ cleaner_get l i d = Ok x)
  /\ (i < - Z.of_nat (length l) \/ Z.of_nat (length l) <= i ->
        clean_get l i od = Ok (match l with x :: _ => Some x | [] => od end) /\
        cleaner_get l i d = Ok (match l with x :: _ => x | [] => d end))
  /\ (exists r, clean_get l i od = Ok r)
  /\ (exists r, cleaner_get l i d = Ok r).
Proof.
  split; [| split].
  - intros Hi.
    destruct (lookup_in_range l (Z.to_nat i)) as [x Hx]; [lia |].
    exists x. split; [exact Hx |].
    assert (getitem l i = Ok x) as E by (apply getitem_nonneg; [lia | exact Hx]).
    split; [now apply clean_get_hit | now apply cleaner_get_hit].
  - intros Hi. apply getitem_out_of_range in Hi.
    split; [now apply clean_get_miss | now apply cleaner_get_miss].
  - destruct (getitem l i) as [x|e] eqn:E.
    + split; eexists; [exact (clean_get_hit _ _ _ _ E) | exact (cleaner_get_hit _ _ _ _ E)].
    + pose proof (getitem_raises_IndexError _ _ _ E) as ->.
      split; eexists; [exact (clean_get_miss _ _ _ E) | exact (cleaner_get_miss _ _ _ E)].
Qed.

(** C10. For a list of length [n] and an index [-n <= i < 0], both
    variants return the element at position [n + i]. *)
Theorem clean_get_negative_index l i d od :
  - Z.of_nat (length l) <= i < 0 ->
  exists x, l !! Z.to_nat (Z.of_nat (length l) + i) = Some x /\
            clean_get l i od = Ok (Some x) /\ cleaner_get l i d = Ok x.
Proof.
  intros Hi.
  destruct (lookup_in_range l (Z.to_nat (Z.of_nat (length l) + i))) as [x Hx]; [lia |].
  exists x. split; [exact Hx |].
  assert (getitem l i = Ok x) as E.
  { apply getitem_negative; [lia | lia |].
    now rewrite Z.add_comm. }
  split; [now apply clean_get_hit | now apply cleaner_get_hit].
Qed.
End CleanGet.

Lemma clean_get_contract_witness :
  (exists x, [10; 20; 30] !! Z.to_nat 2 = Some x /\
             clean_get [10; 20; 30] 2 None = Ok (Some x) /\
             cleaner_get [10; 20; 30] 2 0 = Ok x)
  /\ clean_get [10; 20; 30] 7 None = Ok (Some 10)
  /\ clean_get (@nil Z) 7 (Some 5) = Ok (Some 5)
  /\ cleaner_get (@nil Z) (-1) 5 = Ok 5.
Proof.
  split; [| split; [| split]].
  - apply (proj1 (clean_get_contract [10; 20; 30] 2 0 None)). simpl. lia.
  - apply (proj1 (proj2 (clean_get_contract [10; 20; 30] 7 0 None))). simpl. lia.
  - apply (proj1 (proj2 (clean_get_contract (@nil Z) 7 0 (Some 5)))). simpl. lia.
  - apply (proj1 (proj2 (clean_get_contract (@nil Z) (-1) 5 None))). simpl. lia.
Defined.

Lemma clean_get_negative_index_witness :
  clean_get [10; 20; 30] (-1) None = Ok (Some 30)
  /\ cleaner_get [10; 20; 30] (-1) 0 = Ok 30.
Proof.
  destruct (clean_get_negative_index [10; 20; 30] (-1) 0 None) as (x & Hx & Hget);
    [simpl; lia |].
  injection Hx as <-. exact Hget.
Defined.

(** ** Digit strings *)

Lemma is_digit_not_space c : is_digit c = true -> is_space c = false.
Proof. unfold is_digit, is_space. cbv zeta. lia. Qed.

Lemma is_digit_not_sign c :
  is_digit c = true -> Ascii.eqb c "-" = false /\ Ascii.eqb c "+" = false.
Proof.
  intros Hc. split; apply Ascii.eqb_neq; intros ->; vm_compute in Hc; discriminate.
Qed.

#[local] Arguments String.append !_ _ / : simpl nomatch.

Lemma string_app_assoc (s t u : string) : (s +:+ t) +:+ u = s +:+ (t +:+ u).
Proof. induction s as [|c s IH]; simpl; [reflexivity | now rewrite IH]. Qed.

Lemma rev_onto_app s t acc : rev_onto (s +:+ t) acc = rev_onto t (rev_onto s acc).
Proof. revert acc. induction s as [|c s IH]; intros acc; simpl; [reflexivity | apply IH]. Qed.

Lemma rev_onto_acc s acc : rev_onto s acc = rev_onto s "" +:+ acc.
Proof.
  revert acc. induction s as [|c s IH]; intros acc; simpl; [reflexivity |].
  rewrite IH, (IH (String c "")).
  now rewrite string_app_assoc.
Qed.

Lemma rev_string_involutive s : rev_string (rev_string s) = s.
Proof.
  unfold rev_string. induction s as [|c s IH]; simpl; [reflexivity |].
  rewrite (rev_onto_acc s (String c "")), rev_onto_app. simpl.
  now rewrite IH.
Qed.

Lemma all_chars_rev_onto p s acc :
  all_chars p (rev_onto s acc) = all_chars p s && all_chars p acc.
Proof.
  revert acc. induction s as [|c s IH]; intros acc; simpl; [reflexivity |].
  rewrite IH. simpl. destruct (p c), (all_chars p s); reflexivity.
Qed.

Lemma lstrip_digits s : all_chars is_digit s = true -> lstrip s = s.
Proof.
  destruct s as [|c s]; simpl; [reflexivity |].
  intros [Hc _]%andb_true_iff. now rewrite (is_digit_not_space _ Hc).
Qed.

Lemma strip_digits s : all_chars is_digit s = true -> strip s = s.
Proof.
  intros Hs. unfold strip, rstrip. rewrite (lstrip_digits _ Hs).
  rewrite lstrip_digits; [apply rev_string_involutive |].
  unfold rev_string. rewrite all_chars_rev_onto, Hs. reflexivity.
Qed.

Lemma int_of_digits_decimal s acc :
  all_chars is_digit s = true ->
  int_of_digits acc s = Some (acc * 10 ^ Z.of_nat (String.length s) + decimal s).
Proof.
  revert acc. induction s as [|c s IH]; intros acc; simpl.
  - intros _. f_equal. lia.
  - intros [Hc Hs]%andb_true_iff. rewrite Hc, (IH _ Hs). f_equal.
    rewrite Nat2Z.inj_succ, Z.pow_succ_r by lia. lia.
Qed.

Lemma int_of_string_digit_run s :
  digit_run s = true -> int_of_string s = Some (decimal s).
Proof.
  unfold digit_run. intros [Hne Hs]%andb_true_iff.
  unfold int_of_string. rewrite (strip_digits _ Hs).
  destruct s as [|c s]; [discriminate |].
  pose proof Hs as [Hc _]%andb_true_iff.
  destruct (is_digit_not_sign _ Hc) as [-> ->].
  rewrite (int_of_digits_decimal _ _ Hs). f_equal.
Qed.

(** ** The digit search *)

Lemma take_digits_run run post :
  all_chars is_digit run = true -> ends_run post = true ->
  take_digits (run +:+ post) = run.
Proof.
  intros Hrun Hpost. induction run as [|c run IH]; simpl.
  - destruct post as [|c post]; simpl in *; [reflexivity |].
    now apply negb_true_iff in Hpost as ->.
  - simpl in Hrun. apply andb_true_iff in Hrun as [-> Hrun]. now rewrite IH.
Qed.

Lemma re_search_digits_first pre run post :
  no_digit pre = true -> digit_run run = true -> ends_run post = true ->
  re_search_digits (pre +:+ run +:+ post) = Some run.
Proof.
  intros Hpre [Hne Hrun]%andb_true_iff Hpost.
  induction pre as [|c pre IH]; simpl.
  - destruct run as [|c run]; [discriminate |].
    simpl in *. apply andb_true_iff in Hrun as [-> Hrun].
    now rewrite take_digits_run.
  - unfold no_digit in Hpre. simpl in Hpre.
    apply andb_true_iff in Hpre as [Hc Hpre].
    apply negb_true_iff in Hc as ->. now apply IH.
Qed.

Lemma re_search_digits_none s : no_digit s = true -> re_search_digits s = None.
Proof.
  unfold no_digit. induction s as [|c s IH]; simpl; [reflexivity |].
  intros [Hc Hs]%andb_true_iff. apply negb_true_iff in Hc as ->. now apply IH.
Qed.

(** ** input_to_int *)

Section InputToInt.
Context {rt : Runtime}.

(** C5. A falsy input gives the caller default; a truthy input whose
    string form has a run of decimal digits gives the number the first
    such run denotes; a truthy input whose string form has no digit
    raises. *)
Theorem input_to_int_contract (_input_value _default : value) :
  (truthy _input_value = false -> input_to_int _input_value _default = Ok _default)
  /\ (truthy _input_value = true ->
      forall pre run post,
        py_str _input_value = pre +:+ run +:+ post ->
        no_digit pre = true -> digit_run run = true -> ends_run post = true ->
        input_to_int _input_value _default = Ok (VInt (decimal run)))
  /\ (truthy _input_value = true -> no_digit (py_str _input_value) = true ->
      input_to_int _input_value _default = Error Exception_).
Proof.
  unfold input_to_int. split; [| split].
  - now intros ->.
  - intros -> pre run post -> Hpre Hrun Hpost. simpl.
    rewrite (re_search_digits_first _ _ _ Hpre Hrun Hpost). simpl.
    now rewrite (int_of_string_digit_run _ Hrun).
  - intros -> Hnone. simpl. now rewrite (re_search_digits_none _ Hnone).
Qed.
End InputToInt.

(** ** memoize *)

Section MemoizeFacts.
Context {K V KW W : Type} `{Countable K}.
Variable func : @function K V KW W _ _.
Implicit Types (h : @host K V W _ _) (args : K) (kwargs : KW) (v : V).

(** A call whose arguments are in [sticky] returns the entry and leaves
    everything as it is: the function does not run. *)
Lemma wrapper_cached h args kwargs v :
  sticky h !! args = Some v -> wrapper func args kwargs h = (Ok v, h).
Proof. intros E. unfold wrapper, dict_getitem. now rewrite E. Qed.

(** A call whose arguments are not in [sticky] runs the function once. *)
Lemma wrapper_fresh h args kwargs :
  sticky h !! args = None ->
  wrapper func args kwargs h =
    let '(r, (d, w)) := func args kwargs (sticky h, env h) in
    match r with
    | Ok rv => (Ok rv, {| sticky := <[args := rv]> d; env := w; calls := S (calls h) |})
    | Error e => (Error e, {| sticky := d; env := w; calls := S (calls h) |})
    end.
Proof.
  intros E. unfold wrapper, dict_getitem, invoke. rewrite E. simpl.
  destruct (func args kwargs (sticky h, env h)) as [[rv|e] [d w]]; reflexivity.
Qed.

(** A call that returns leaves its result in [sticky]. *)
Lemma wrapper_stores h args kwargs v h1 :
  wrapper func args kwargs h = (Ok v, h1) -> sticky h1 !! args = Some v.
Proof.
  destruct (sticky h !! args) as [v0|] eqn:E.
  - rewrite (wrapper_cached _ _ _ _ E). intros [= <- <-]. exact E.
  - rewrite (wrapper_fresh _ _ _ E).
    destruct (func args kwargs (sticky h, env h)) as [[rv|e] [d w]]; [| discriminate].
    intros [= <- <-]. simpl. apply lookup_insert_eq.
Qed.

Lemma wrapper_calls h args kwargs v h1 :
  wrapper func args kwargs h = (Ok v, h1) ->
  calls h1 = match sticky h !! args with
             | Some _ => calls h
             | None => S (calls h)
             end.
Proof.
  destruct (sticky h !! args) as [v0|] eqn:E.
  - rewrite (wrapper_cached _ _ _ _ E). now intros [= <- <-].
  - rewrite (wrapper_fresh _ _ _ E).
    destruct (func args kwargs (sticky h, env h)) as [[rv|e] [d w]]; [| discriminate].
    now intros [= <- <-].
Qed.

(** C7, as amended.  From any starting state, when a call returns, the
    next call with the same positional arguments returns the same value
    and changes nothing, so the function does not run again, whatever it
    would return now.  Over the two calls the function has run once when
    [sticky] had no entry for the arguments at the start, and not at all
    when it had one, which is then what both calls return. *)
Theorem memoize_second_call_cached h args kwargs v h1 :
  memoize func args kwargs h = (Ok v, h1) ->
  memoize func args kwargs h1 = (Ok v, h1)
  /\ (sticky h !! args = None -> calls h1 = S (calls h))
  /\ (forall v0, sticky h !! args = Some v0 -> v = v0 /\ calls h1 = calls h).
Proof.
  unfold memoize. intros Hcall.
  split; [| split].
  - apply wrapper_cached. exact (wrapper_stores _ _ _ _ _ Hcall).
  - intros E. rewrite (wrapper_calls _ _ _ _ _ Hcall), E. reflexivity.
  - intros v0 E. split.
    + rewrite (wrapper_cached _ _ _ _ E) in Hcall. congruence.
    + rewrite (wrapper_calls _ _ _ _ _ Hcall), E. reflexivity.
Qed.

(** C9, as amended.  The key is the positional arguments alone: when a
    call returns, the next call with the same positional arguments and any
    keyword arguments changes nothing, so the function does not run, and
    returns the value of the first call.  That value is the function's
    result for the first call's keyword arguments when [sticky] had no
    entry for the arguments before the first call, and the entry it had
    otherwise. *)
Theorem memoize_ignores_kwargs h args kwargs1 kwargs2 v h1 :
  memoize func args kwargs1 h = (Ok v, h1) ->
  memoize func args kwargs2 h1 = (Ok v, h1)
  /\ (sticky h !! args = None ->
      (func args kwargs1 (sticky h, env h)).1 = Ok v)
  /\ (forall v0, sticky h !! args = Some v0 -> v = v0 /\ h1 = h).
Proof.
  unfold memoize. intros Hcall. split; [| split].
  - apply wrapper_cached. exact (wrapper_stores _ _ _ _ _ Hcall).
  - intros E. rewrite (wrapper_fresh _ _ _ E) in Hcall.
    destruct (func args kwargs1 (sticky h, env h)) as [[rv|e] [d w]]; [| discriminate].
    simpl. now injection Hcall as -> _.
  - intros v0 E. rewrite (wrapper_cached _ _ _ _ E) in Hcall.
    now injection Hcall as -> ->.
Qed.
End MemoizeFacts.

(** Two calls from an empty [sticky]: the counter runs once and the second
    call returns what the first returned, although the counter has moved. *)
Lemma memoize_second_call_cached_witness :
  let h := {| sticky := ∅; env := 0; calls := 0 |} in
  let h1 := (memoize Sample.counter 0%nat tt h).2 in
  memoize Sample.counter 0%nat tt h1 = (Ok 0, h1)
  /\ calls h1 = 1%nat
  /\ (Sample.counter 0%nat tt (sticky h1, env h1)).1 = Ok 1.
Proof.
  intros h h1.
  destruct (memoize_second_call_cached Sample.counter h 0%nat tt 0 h1) as (H2 & Hn & _).
  - vm_compute. reflexivity.
  - split; [exact H2 | split; [apply Hn; reflexivity | reflexivity]].
Defined.

(** C7 as stated fails where [sticky] already holds the arguments: neither
    of the two calls runs the function. *)
Lemma memoize_once_counterexample :
  let h := {| sticky := {[ 0%nat := 7 ]}; env := 0; calls := 0 |} in
  let '(r1, h1) := memoize Sample.counter 0%nat tt h in
  let '(r2, h2) := memoize Sample.counter 0%nat tt h1 in
  r1 = Ok 7 /\ r2 = Ok 7 /\ calls h2 = calls h /\ calls h2 <> S (calls h).
Proof. vm_compute. repeat split; discriminate. Qed.

Lemma memoize_ignores_kwargs_witness :
  let h := {| sticky := ∅; env := tt; calls := 0 |} in
  let h1 := (memoize Sample.scale 3 2 h).2 in
  memoize Sample.scale 3 5 h1 = (Ok 6, h1)
  /\ (Sample.scale 3 2 (sticky h, env h)).1 = Ok 6
  /\ (Sample.scale 3 5 (sticky h1, env h1)).1 = Ok 15.
Proof.
  intros h h1.
  destruct (memoize_ignores_kwargs Sample.scale h 3 2 5 6 h1) as (H2 & Hv & _).
  - vm_compute. reflexivity.
  - split; [exact H2 | split; [apply Hv; reflexivity | reflexivity]].
Defined.

(** C9 as stated fails in two ways.  Where [sticky] already holds the
    arguments, the second call returns that entry, 99, and not 6, the value
    the function computes for the first call's keyword argument.  Where the
    first call raises, nothing is cached and the second call runs the
    function. *)
Lemma memoize_kwargs_counterexample :
  (let h := {| sticky := {[ 3 := 99 ]}; env := tt; calls := 0 |} in
   let '(r1, h1) := memoize Sample.scale 3 2 h in
   let '(r2, h2) := memoize Sample.scale 3 5 h1 in
   (Sample.scale 3 2 (sticky h, env h)).1 = Ok 6
   /\ r2 = Ok 99 /\ r2 <> Ok 6)
  /\ (let failing : @function Z Z Z unit _ _ := fun _ _ s => (Error ValueError, s) in
      let h := {| sticky := ∅; env := tt; calls := 0 |} in
      let '(r1, h1) := memoize failing 3 2 h in
      let '(r2, h2) := memoize failing 3 5 h1 in
      r1 = Error ValueError /\ calls h1 = 1%nat /\ calls h2 = 2%nat).
Proof. vm_compute. repeat split; discriminate. Qed.

(** ** Binary64 comparisons *)

Lemma Prim2SF_zero : Prim2SF 0 = S754_zero false.
Proof. reflexivity. Qed.

(** [v - 0.0] compares like [v]. *)
Lemma sub_zero_ltb (v t : float) : (v - 0 <? t)%float = (v <? t)%float.
Proof.
  rewrite !ltb_spec, sub_spec, Prim2SF_zero.
  now destruct (Prim2SF v) as [[]|[]| |[] m e].
Qed.

(** A negative float is below every positive finite float. *)
Lemma negative_ltb_positive (v t : float) m e :
  Prim2SF t = S754_finite false m e ->
  (v <? 0)%float = true -> (v <? t)%float = true.
Proof.
  intros Ht. rewrite !ltb_spec, Prim2SF_zero, Ht.
  now destruct (Prim2SF v) as [[]|[]| |[] m' e'].
Qed.

Lemma negative_below_tolerance (v : float) :
  (v <? 0)%float = true -> (v <? FloatNonZero_tolerance)%float = true.
Proof.
  apply (negative_ltb_positive v _ 7378697629483821 (-66)).
  vm_compute. reflexivity.
Qed.

(** A float equal to zero is not below zero. *)
Lemma zero_not_negative (r : float) :
  (r =? 0)%float = true -> (r <? 0)%float = false.
Proof.
  rewrite FloatAxioms.eqb_spec, ltb_spec, Prim2SF_zero.
  now destruct (Prim2SF r) as [[]|[]| |[] m e].
Qed.

(** The sign check of the unit validators, [result and result < 0.0],
    fires exactly on the negative results. *)
Lemma sign_check (r : float) :
  negb (r =? 0)%float && (r <? 0)%float = (r <? 0)%float.
Proof.
  destruct (r =? 0)%float eqn:E; simpl; [| reflexivity].
  symmetry. now apply zero_not_negative.
Qed.

(** ** The validators *)

Create HintDb unit_classes.

#[local] Hint Unfold
  UnitM_validate UnitM2_validate UnitMM_validate UnitW_MK_validate
  UnitW_M2K_validate UnitW_K_validate UnitDeltaC_validate UnitDegreeC_validate
  UnitMeterPerSecond_validate UnitWH_M3_validate UnitKWH_validate
  UnitKWH_M2_validate UnitW_M2_validate UnitM3_S_validate UnitKW_validate
  UnitW_validate UnitKG_M2_validate UnitCost_M2_validate : unit_classes.

Section ValidatorFacts.
Context {rt : Runtime} {units : PhUnits} {hb : Honeybee}.
Implicit Types (self : Validated) (name : string) (x old v : value).

(** [try: x = coerce(x)  except: raise ValueError], then the rest. *)
Lemma coerce_then {A B : Type} (c : py A) (k : A -> py B) (b : B) :
  (let* a := try_except_all c (raise ValueError) in k a) = Ok b ->
  exists a, c = Ok a /\ k a = Ok b.
Proof. destruct c as [a|e]; simpl; [eauto | discriminate]. Qed.

Lemma coerce_ok {A B : Type} (c : py A) (k : A -> py B) (a : A) :
  c = Ok a -> (let* a := try_except_all c (raise ValueError) in k a) = k a.
Proof. now intros ->. Qed.

(** *** What a validator returns for a value that is not [None] *)

Lemma NotNone_accepts self name x old v :
  is_None x = false -> NotNone_validate self name x old = Ok v ->
  satisfies_rule NotNone v = true.
Proof.
  unfold NotNone_validate. intros Hx. rewrite Hx. simpl. intros [= <-].
  simpl. now rewrite Hx.
Qed.

Lemma HBName_accepts self name x old v :
  is_None x = false -> HBName_validate self name x old = Ok v ->
  satisfies_rule HBName v = true.
Proof.
  unfold HBName_validate. intros ->.
  intros (s & _ & Hs)%bind_Ok.
  destruct (String.eqb s "") eqn:E; [discriminate |].
  injection Hs as <-. simpl. now rewrite E.
Qed.

Lemma IntegerNonZero_accepts self name x old v :
  is_None x = false -> IntegerNonZero_validate self name x old = Ok v ->
  satisfies_rule IntegerNonZero v = true.
Proof.
  unfold IntegerNonZero_validate. intros ->.
  intros (z & _ & Hz)%coerce_then.
  destruct (z <? 1) eqn:E; [discriminate |].
  injection Hz as <-. simpl. lia.
Qed.

Lemma IntegerPositiveValueOrZero_accepts self name x old v :
  is_None x = false -> IntegerPositiveValueOrZero_validate self name x old = Ok v ->
  satisfies_rule IntegerPositiveValueOrZero v = true.
Proof.
  unfold IntegerPositiveValueOrZero_validate. intros ->.
  intros (z & _ & Hz)%coerce_then.
  destruct (z <? 0) eqn:E; [discriminate |].
  injection Hz as <-. simpl. lia.
Qed.

Lemma Float_accepts self name x old v :
  is_None x = false -> Float_validate self name x old = Ok v ->
  satisfies_rule Float v = true.
Proof.
  unfold Float_validate. intros ->.
  now intros (f & _ & [= <-])%coerce_then.
Qed.

Lemma FloatNonZero_accepts self name x old v :
  is_None x = false -> FloatNonZero_validate self name x old = Ok v ->
  satisfies_rule FloatNonZero v = true.
Proof.
  unfold FloatNonZero_validate. intros ->.
  intros (f & _ & Hf)%coerce_then.
  rewrite sub_zero_ltb in Hf. unfold FloatNonZero_tolerance in Hf.
  destruct (f <? 0.0001)%float eqn:E; [discriminate |].
  injection Hf as <-. simpl. now rewrite E.
Qed.

Lemma FloatPositiveValue_accepts self name x old v :
  is_None x = false -> FloatPositiveValue_validate self name x old = Ok v ->
  satisfies_rule FloatPositiveValue v = true.
Proof.
  unfold FloatPositiveValue_validate. intros ->.
  intros (f & _ & Hf)%coerce_then.
  destruct (f <? 0)%float eqn:E; [discriminate |].
  injection Hf as <-. simpl. now rewrite E.
Qed.

Lemma FloatPercentage_accepts self name x old v :
  is_None x = false -> FloatPercentage_validate self name x old = Ok v ->
  satisfies_rule FloatPercentage v = true.
Proof.
  unfold FloatPercentage_validate. intros ->.
  intros (f & _ & Hf)%coerce_then. cbv zeta in Hf.
  match type of Hf with
  | (if negb ?b then _ else _) = _ => destruct b eqn:E; [| discriminate]
  end.
  injection Hf as <-. exact E.
Qed.

Lemma FloatMax24_accepts self name x old v :
  is_None x = false -> FloatMax24_validate self name x old = Ok v ->
  satisfies_rule FloatMax24 v = true.
Proof.
  unfold FloatMax24_validate. intros ->.
  intros (f & _ & Hf)%coerce_then. unfold FloatMax24_tolerance in Hf.
  destruct (24 - f <? -0.0001)%float eqn:E; [discriminate |].
  injection Hf as <-. simpl. now rewrite E.
Qed.



Lemma Unit_accepts unit_ self name x old v :
  is_None x = false -> Unit_validate unit_ self name x old = Ok v ->
  exists f, v = VFloat f.
Proof.
  unfold Unit_validate. intros ->.
  intros ([m u] & _ & Hm)%bind_Ok.
  apply coerce_then in Hm as (f & _ & Hc).
  apply bind_Ok in Hc as (r & _ & [= <-]). eauto.
Qed.

Lemma UnitPositive_accepts unit_ self name x old v :
  is_None x = false -> UnitPositive_validate unit_ self name x old = Ok v ->
  exists f, v = VFloat f /\ (f <? 0)%float = false.
Proof.
  unfold UnitPositive_validate. intros ->.
  intros ([m u] & _ & Hm)%bind_Ok.
  apply coerce_then in Hm as (f & _ & Hc).
  apply bind_Ok in Hc as (r & _ & Hr).
  simpl truthy in Hr. rewrite sign_check in Hr.
  destruct (r <? 0)%float eqn:E; [discriminate |].
  injection Hr as <-. eauto.
Qed.

(** [UnitCost_KWH] returns [None] whenever it returns for a value that
    is not [None]: its body has no [return]. *)
Lemma UnitCost_KWH_returns_None self name x old v :
  is_None x = false -> UnitCost_KWH_validate self name x old = Ok v -> v = VNone.
Proof.
  unfold UnitCost_KWH_validate. intros ->.
  intros ([m u] & _ & Hm)%bind_Ok.
  apply coerce_then in Hm as (f & _ & Hc).
  now apply bind_Ok in Hc as (r & _ & [= <-]).
Qed.

(** What [validate] returns for a value that is not [None] satisfies the
    rule of the class, [UnitCost_KWH] apart. *)
Lemma validate_accepts self name x old v :
  cls self <> UnitCost_KWH -> is_None x = false ->
  validate self name x old = Ok v ->
  satisfies_rule (cls self) v = true.
Proof.
  intros Hc Hx. unfold validate.
  destruct (cls self) eqn:E; intros Hv; try congruence;
    autounfold with unit_classes in Hv;
    first
      [ eapply NotNone_accepts; eassumption
      | eapply HBName_accepts; eassumption
      | eapply IntegerNonZero_accepts; eassumption
      | eapply IntegerPositiveValueOrZero_accepts; eassumption
      | eapply Float_accepts; eassumption
      | eapply FloatNonZero_accepts; eassumption
      | eapply FloatPositiveValue_accepts; eassumption
      | eapply FloatPercentage_accepts; eassumption
      | eapply FloatMax24_accepts; eassumption
      | apply (Unit_accepts _ _ _ _ _ _ Hx) in Hv as [f ->]; reflexivity
      | apply (UnitPositive_accepts _ _ _ _ _ _ Hx) in Hv as (f & -> & Hf);
        simpl; now rewrite Hf ].
Qed.

(** C1, as amended.  For every validator except [UnitCost_KWH], when a
    set of a value that is not [None] completes without raising, the
    value then stored under the storage name satisfies the validator's
    rule. *)
Theorem set_stores_accepted_value self (instance instance' : gmap string value) x :
  cls self <> UnitCost_KWH -> is_None x = false ->
  __set__ self instance x = Ok instance' ->
  exists v, instance' !! storage_name self = Some v
            /\ __get__ self instance' = Ok v
            /\ satisfies_rule (cls self) v = true.
Proof.
  intros Hc Hx. unfold __set__.
  intros (v & Hv & [= <-])%bind_Ok.
  exists v. unfold __get__. rewrite lookup_insert_eq.
  repeat split. exact (validate_accepts _ _ _ _ _ Hc Hx Hv).
Qed.

(** C2, as amended.  When the new value is [None], a validator with a
    default coercion returns the coerced default when the coercion
    succeeds and the old value, whatever it is, when it fails: it does
    not raise.  [NotNone] has no default coercion: it returns the old
    value, and raises when that is [None] too. *)
Theorem validate_None_fallback self name old :
  (forall c, default_coercion (cls self) (default_value self) = Some c ->
     validate self name VNone old =
       match c with
       | Ok v => Ok v
       | Error _ => Ok old
       end)
  /\ (default_coercion (cls self) (default_value self) = None ->
      validate self name VNone old =
        if is_None old then Error ValueError else Ok old).
Proof.
  unfold validate, default_coercion.
  destruct (cls self); (split; [intros c Hc | intros Hn]);
    try discriminate; try (injection Hc as <-);
    first [reflexivity | now destruct old].
Qed.

(** C3.  For an input that is not [None] and coerces to the float [v],
    [FloatNonZero] raises when [v - 0.0 < tolerance] and returns [v]
    otherwise; the test is the same as [v < 0.0001], so every negative
    [v] is rejected. *)
Theorem FloatNonZero_rejects_below_tolerance self name x old (v : float) :
  cls self = FloatNonZero -> is_None x = false -> py_float x = Ok v ->
  validate self name x old =
    (if (v - 0.0 <? FloatNonZero_tolerance)%float
     then Error ValueError else Ok (VFloat v))
  /\ (v - 0.0 <? FloatNonZero_tolerance)%float = (v <? 0.0001)%float
  /\ ((v <? 0)%float = true -> validate self name x old = Error ValueError).
Proof.
  intros Hc Hx Hv.
  assert (validate self name x old =
            if (v - 0.0 <? FloatNonZero_tolerance)%float
            then Error ValueError else Ok (VFloat v)) as Hval.
  { unfold validate. rewrite Hc. unfold FloatNonZero_validate.
    rewrite Hx, (coerce_ok _ _ _ Hv). reflexivity. }
  split; [exact Hval | split].
  - apply sub_zero_ltb.
  - intros Hneg. rewrite Hval, sub_zero_ltb.
    now rewrite (negative_below_tolerance _ Hneg).
Qed.

(** C4.  For an input that is not [None] and coerces to the float [v],
    [FloatPercentage] divides [v] by 100 when [1.0 < v < 100.0], and then
    returns the result when it lies in [0.0 .. 1.0] and raises
    otherwise.  So 50 gives 0.5, 0.5 gives 0.5, and 150, 100.0 and -0.1
    raise. *)
Theorem FloatPercentage_rescales_then_checks self name old :
  cls self = FloatPercentage ->
  (forall x (v : float), is_None x = false -> py_float x = Ok v ->
     validate self name x old =
       let v' := if ((1.0 <? v) && (v <? 100.0))%float then (v / 100)%float else v in
       if ((0.0 <=? v') && (v' <=? 1.0))%float then Ok (VFloat v')
       else Error ValueError)
  /\ validate self name (VInt 50) old = Ok (VFloat 0.5)
  /\ validate self name (VFloat 0.5) old = Ok (VFloat 0.5)
  /\ validate self name (VInt 150) old = Error ValueError
  /\ validate self name (VFloat 100.0) old = Error ValueError
  /\ validate self name (VFloat (-0.1)) old = Error ValueError.
Proof.
  intros Hc. unfold validate. rewrite Hc. unfold FloatPercentage_validate.
  split; [| repeat split; vm_compute; reflexivity].
  intros x v Hx Hv. rewrite Hx, (coerce_ok _ _ _ Hv). cbv beta zeta.
  destruct ((1.0 <? v) && (v <? 100.0))%float;
    match goal with
    | |- (if negb ?b then _ else _) = _ => now destruct b
    end.
Qed.



End ValidatorFacts.

(** * Further properties *)

(** ** clean_get, cleaner_get and clean_tree_get *)

Section CleanGetMore.
Context {T : Type}.
Implicit Types (l : list T) (i : Z) (d : T) (od : option T).

Lemma getitem_elem_of l i x : getitem l i = Ok x -> x ∈ l.
Proof.
  unfold getitem.
  destruct ((0 <=? _) && _); [| discriminate].
  destruct (l !! _) as [y|] eqn:E; [| discriminate].
  intros [= <-]. apply list_elem_of_lookup. eauto.
Qed.

(** What both variants return, by what [_list[_i]] does. *)
Lemma clean_get_cases l i d od :
  (exists x, getitem l i = Ok x /\ x ∈ l /\
             clean_get l i od = Ok (Some x) /\ cleaner_get l i d = Ok x)
  \/ (getitem l i = Error IndexError /\
      clean_get l i od = Ok (match l with x :: _ => Some x | [] => od end) /\
      cleaner_get l i d = Ok (match l with x :: _ => x | [] => d end)).
Proof.
  destruct (getitem l i) as [x|e] eqn:E.
  - left. exists x. split; [reflexivity |]. split; [exact (getitem_elem_of _ _ _ E) |].
    split; [exact (clean_get_hit _ _ _ _ E) | exact (cleaner_get_hit _ _ _ _ E)].
  - right. pose proof (getitem_raises_IndexError _ _ _ E) as ->.
    split; [reflexivity |].
    split; [exact (clean_get_miss _ _ _ E) | exact (cleaner_get_miss _ _ _ E)].
Qed.

(** X1. On a non-empty list both variants return an element of the list,
    whatever the index, and never the default; on an empty list they return
    the default. *)
Theorem clean_get_returns_an_element l i d od :
  (l <> [] ->
   exists x, x ∈ l /\ clean_get l i od = Ok (Some x) /\ cleaner_get l i d = Ok x)
  /\ (l = [] -> clean_get l i od = Ok od /\ cleaner_get l i d = Ok d).
Proof.
  split.
  - intros Hne. destruct (clean_get_cases l i d od) as [(x & _ & Hx & H1 & H2) | (_ & H1 & H2)].
    + eauto.
    + destruct l as [|x l]; [congruence |].
      exists x. split; [apply list_elem_of_here | split; assumption].
  - intros ->. destruct (clean_get_cases [] i d od) as [(x & _ & Hx & _) | (_ & H1 & H2)].
    + now apply not_elem_of_nil in Hx.
    + split; assumption.
Qed.

(** X2. A list of one item gives that item at every index: a single input
    is used for every position of a longer parallel list. *)
Theorem clean_get_broadcasts_single_item (x : T) i d od :
  clean_get [x] i od = Ok (Some x) /\ cleaner_get [x] i d = Ok x.
Proof.
  destruct (clean_get_cases [x] i d od) as [(y & _ & Hy & H1 & H2) | (_ & H1 & H2)].
  - apply list_elem_of_singleton in Hy as ->. split; assumption.
  - split; assumption.
Qed.

(** X3. The two variants agree: [clean_get] with a default returns what
    [cleaner_get] returns with that default. *)
Theorem clean_get_agrees_with_cleaner_get l i d :
  clean_get l i (Some d) = let* x := cleaner_get l i d in Ok (Some x).
Proof.
  destruct (clean_get_cases l i d (Some d)) as [(x & _ & _ & -> & ->) | (_ & -> & ->)].
  - reflexivity.
  - now destruct l.
Qed.
End CleanGetMore.

Section CleanTreeGet.
Context {Tree B : Type} `{DataTree Tree B}.
Implicit Types (t : Tree) (i : Z) (od : option B).

(** X4. [clean_tree_get] never raises, whatever [Branch] raises, since
    its handlers catch every exception: it returns the branch at the index
    when [Branch] returns it, else the branch at 0 when [Branch] returns
    that, else the default. *)
Theorem clean_tree_get_never_raises t i od :
  (exists r, clean_tree_get t i od = Ok r)
  /\ (forall b, Branch t i = Ok b -> clean_tree_get t i od = Ok (Some b))
  /\ (forall e b, Branch t i = Error e -> Branch t 0 = Ok b ->
        clean_tree_get t i od = Ok (Some b))
  /\ (forall e e', Branch t i = Error e -> Branch t 0 = Error e' ->
        clean_tree_get t i od = Ok od).
Proof.
  unfold clean_tree_get.
  split; [| split; [| split]].
  - destruct (Branch t i); simpl; [eauto |].
    destruct (Branch t 0); simpl; eauto.
  - now intros b ->.
  - now intros e b -> ->.
  - now intros e e' -> ->.
Qed.
End CleanTreeGet.

(** ** input_to_int on a truthy input *)

Lemma digit_val_nonneg c : is_digit c = true -> 0 <= digit_val c.
Proof. unfold is_digit, digit_val. cbv zeta. lia. Qed.

Lemma decimal_nonneg s : all_chars is_digit s = true -> 0 <= decimal s.
Proof.
  induction s as [|c s IH]; simpl; [lia |].
  intros [Hc Hs]%andb_true_iff.
  pose proof (digit_val_nonneg _ Hc). specialize (IH Hs).
  assert (0 <= 10 ^ Z.of_nat (String.length s)) by (apply Z.pow_nonneg; lia).
  nia.
Qed.

Lemma take_digits_all_digits s : all_chars is_digit (take_digits s) = true.
Proof.
  induction s as [|c s IH]; simpl; [reflexivity |].
  destruct (is_digit c) eqn:E; simpl; [now rewrite E | reflexivity].
Qed.

(** The search finds a run of digits exactly when the string has a digit. *)
Lemma re_search_digits_cases s :
  if no_digit s then re_search_digits s = None
  else exists g, re_search_digits s = Some g /\ digit_run g = true.
Proof.
  unfold no_digit. induction s as [|c s IH]; simpl; [reflexivity |].
  destruct (is_digit c) eqn:E; simpl.
  - eexists. split; [reflexivity |].
    unfold digit_run. simpl. now rewrite E, take_digits_all_digits.
  - exact IH.
Qed.

Section InputToIntMore.
Context {rt : Runtime}.

(** X5. For a truthy input [input_to_int] never returns the default and
    never a negative number: when the string form has a digit it returns a
    non-negative integer (a sign before the digits is not read), and when
    it has none it raises [Exception]; no other exception escapes. *)
Theorem input_to_int_truthy (_input_value _default : value) :
  truthy _input_value = true ->
  if no_digit (py_str _input_value)
  then input_to_int _input_value _default = Error Exception_
  else exists n, 0 <= n /\ input_to_int _input_value _default = Ok (VInt n).
Proof.
  intros Ht. unfold input_to_int. rewrite Ht. simpl.
  pose proof (re_search_digits_cases (py_str _input_value)) as Hs.
  destruct (no_digit (py_str _input_value)).
  - now rewrite Hs.
  - destruct Hs as (g & -> & Hg). simpl.
    rewrite (int_of_string_digit_run _ Hg). simpl.
    exists (decimal g). split; [| reflexivity].
    apply decimal_nonneg. now apply andb_true_iff in Hg as [_ Hg].
Qed.
End InputToIntMore.

(** ** memoize: one cache for every function *)

Section MemoizeMore.
Context {K V KW W : Type} `{Countable K}.
Implicit Types (func : @function K V KW W _ _) (h : @host K V W _ _)
  (args : K) (kwargs : KW) (v : V).

(** X6. The key does not name the function: once a memoized function has
    returned for some positional arguments, any other memoized function
    called with the same positional arguments returns that value and does
    not run. *)
Theorem memoize_shared_between_functions func1 func2 h args kwargs1 kwargs2 v h1 :
  memoize func1 args kwargs1 h = (Ok v, h1) ->
  memoize func2 args kwargs2 h1 = (Ok v, h1).
Proof.
  unfold memoize. intros Hcall.
  apply wrapper_cached. exact (wrapper_stores _ _ _ _ _ _ Hcall).
Qed.

(** When a call with a hashable argument tuple raises, the arguments were
    not in [sticky], the function ran once and the exception is its own,
    and the wrapper has written nothing. *)
Lemma wrapper_raise_not_cached func h args kwargs e h1 :
  memoize func args kwargs h = (Error e, h1) ->
  sticky h !! args = None
  /\ func args kwargs (sticky h, env h) = (Error e, (sticky h1, env h1))
  /\ calls h1 = S (calls h).
Proof.
  unfold memoize. destruct (sticky h !! args) as [v0|] eqn:E.
  - rewrite (wrapper_cached _ _ _ _ _ E). discriminate.
  - rewrite (wrapper_fresh _ _ _ _ E).
    destruct (func args kwargs (sticky h, env h)) as [[rv|e'] [d w]]; [discriminate |].
    now intros [= <- <-].
Qed.

(** X8. An entry is never overwritten or dropped by the wrapper.  For a
    function that leaves [sticky] alone, an entry that is in [sticky] is
    still there, unchanged, after a call with any arguments, whether the
    call returns or raises. *)
Theorem memoize_keeps_entries func h args args' kwargs v r h1 :
  (forall a kw d w, (func a kw (d, w)).2.1 = d) ->
  sticky h !! args = Some v ->
  memoize func args' kwargs h = (r, h1) ->
  sticky h1 !! args = Some v.
Proof.
  intros Hfunc Hv. unfold memoize.
  destruct (sticky h !! args') as [v'|] eqn:E.
  - rewrite (wrapper_cached _ _ _ _ _ E). now intros [= <- <-].
  - rewrite (wrapper_fresh _ _ _ _ E).
    specialize (Hfunc args' kwargs (sticky h) (env h)).
    destruct (func args' kwargs (sticky h, env h)) as [[rv|e] [d w]];
      simpl in Hfunc; subst d; intros [= <- <-]; simpl; [| exact Hv].
    rewrite lookup_insert_ne; [exact Hv | congruence].
Qed.
End MemoizeMore.

(** ** Binary64 order *)

Lemma SFcompare_antisym (x y : spec_float) :
  SFcompare y x = option_map CompOpp (SFcompare x y).
Proof.
  destruct x as [[]|[]| |[] m1 e1], y as [[]|[]| |[] m2 e2]; try reflexivity;
    unfold SFcompare, option_map; f_equal;
    rewrite (Z.compare_antisym e1 e2);
    destruct (e1 ?= e2); try reflexivity; cbn [CompOpp];
    rewrite (Pos.compare_cont_antisym m1 m2 Eq); reflexivity.
Qed.

(** [r <= t] excludes [t < r]. *)
Lemma leb_not_ltb (r t : float) : (r <=? t)%float = true -> (t <? r)%float = false.
Proof.
  rewrite leb_spec, ltb_spec. unfold SFleb, SFltb.
  rewrite (SFcompare_antisym (Prim2SF r) (Prim2SF t)).
  now destruct (SFcompare (Prim2SF r) (Prim2SF t)) as [[]|].
Qed.

(** A float that is not below the tolerance of [FloatNonZero] is not
    negative. *)
Lemma not_below_tolerance_not_negative (v : float) :
  (v <? FloatNonZero_tolerance)%float = false -> (v <? 0)%float = false.
Proof.
  intros Hv. destruct (v <? 0)%float eqn:E; [| reflexivity].
  now rewrite (negative_below_tolerance _ E) in Hv.
Qed.

(** ** The descriptor protocol *)

Section DescriptorFacts.
Context {rt : Runtime} {units : PhUnits} {hb : Honeybee}.
Implicit Types (self other : Validated) (name : string) (x old v : value)
  (instance : gmap string value).

(** X9. After a set that completes, a get returns the value [validate]
    returned for the new value and the value stored before, and every
    attribute stored under another name reads as it did before the set. *)
Theorem set_then_get self instance instance' x :
  __set__ self instance x = Ok instance' ->
  (exists v,
     validate self (storage_name self) x
       (default VNone (instance !! storage_name self)) = Ok v
     /\ __get__ self instance' = Ok v)
  /\ (forall other, storage_name other <> storage_name self ->
        __get__ other instance' = __get__ other instance).
Proof.
  unfold __set__. intros (v & Hv & [= <-])%bind_Ok. split.
  - exists v. split; [exact Hv |]. unfold __get__. now rewrite lookup_insert_eq.
  - intros other Hne. unfold __get__. now rewrite lookup_insert_ne.
Qed.

(** What [validate] returns for [None] when the default does not coerce. *)
Lemma validate_None_keeps self name old :
  (forall w, default_coercion (cls self) (default_value self) <> Some (Ok w)) ->
  (cls self = NotNone -> is_None old = false) ->
  validate self name VNone old = Ok old.
Proof.
  intros Hd Hn. unfold validate, default_coercion in *.
  destruct (cls self);
    try (unfold NotNone_validate; simpl; now rewrite Hn);
    autounfold with unit_classes;
    unfold HBName_validate, IntegerNonZero_validate,
      IntegerPositiveValueOrZero_validate, Float_validate, FloatNonZero_validate,
      FloatPositiveValue_validate, FloatPercentage_validate, FloatMax24_validate,
      Unit_validate, UnitPositive_validate, UnitCost_KWH_validate; simpl;
    match goal with
    | |- try_except_all (Py.bind ?c _) _ = _ =>
        destruct c as [w|e]; simpl in *; [now exfalso; eapply Hd | reflexivity]
    end.
Qed.

(** X10. Setting [None] on an attribute that holds a value leaves the
    instance as it is, when the validator's default does not coerce (and,
    for [NotNone], the held value is not [None]). *)
Theorem set_None_keeps_previous self instance v :
  instance !! storage_name self = Some v ->
  (forall w, default_coercion (cls self) (default_value self) <> Some (Ok w)) ->
  (cls self = NotNone -> is_None v = false) ->
  __set__ self instance VNone = Ok instance.
Proof.
  intros Hv Hd Hn. unfold __set__. rewrite Hv. simpl default.
  rewrite (validate_None_keeps _ _ _ Hd Hn). simpl.
  now rewrite (insert_id _ _ _ Hv).
Qed.


(** X12. Whatever [int] or [float] raises on the new value, the validators
    that coerce it directly raise [ValueError]. *)
Theorem coercion_failure_is_ValueError self name x old e :
  is_None x = false ->
  (integer_class (cls self) = true -> py_int x = Error e ->
   validate self name x old = Error ValueError)
  /\ (float_class (cls self) = true -> py_float x = Error e ->
      validate self name x old = Error ValueError).
Proof.
  intros Hx. unfold validate.
  split; intros Hc He; destruct (cls self); try discriminate;
    unfold IntegerNonZero_validate, IntegerPositiveValueOrZero_validate,
      Float_validate, FloatNonZero_validate, FloatPositiveValue_validate,
      FloatPercentage_validate, FloatMax24_validate;
    now rewrite Hx, He.
Qed.

(** X13. A unit validator lets what the parser and the converter raise
    escape as it is, and raises [ValueError] when the parsed magnitude does
    not coerce to a float. *)
Theorem unit_validate_errors self name x old unit_ :
  canonical_unit (cls self) = Some unit_ -> is_None x = false ->
  (forall e, parse_input (py_str x) = Error e -> validate self name x old = Error e)
  /\ (forall m u e, parse_input (py_str x) = Ok (m, u) -> py_float m = Error e ->
        validate self name x old = Error ValueError)
  /\ (forall m u f e, parse_input (py_str x) = Ok (m, u) -> py_float m = Ok f ->
        convert f (units_or u unit_) unit_ = Error e ->
        validate self name x old = Error e).
Proof.
  intros Hu Hx. unfold validate.
  destruct (cls self); try discriminate; injection Hu as <-;
    autounfold with unit_classes;
    unfold Unit_validate, UnitPositive_validate, UnitCost_KWH_validate;
    rewrite Hx;
    (split;
     [ now intros e ->
     | split;
       [ intros m u e Hp Hf; rewrite Hp; simpl; now rewrite Hf
       | intros m u f e Hp Hf Hconv; rewrite Hp; simpl; rewrite Hf; simpl;
         now rewrite Hconv ] ]).
Qed.

(** A value that satisfies the rule of a validator without a unit is
    returned as it is. *)
Lemma validate_rule_accepted self name v old :
  canonical_unit (cls self) = None -> cls self <> HBName ->
  satisfies_rule (cls self) v = true ->
  validate self name v old = Ok v.
Proof.
  intros Hu Hh Hr. unfold validate.
  destruct (cls self); try discriminate; try congruence.
  - unfold NotNone_validate. simpl in Hr. now rewrite Hr.
  - destruct v as [| | z | |]; try discriminate. simpl in Hr.
    unfold IntegerNonZero_validate. simpl.
    destruct (z <? 1) eqn:E; [lia | reflexivity].
  - destruct v as [| | z | |]; try discriminate. simpl in Hr.
    unfold IntegerPositiveValueOrZero_validate. simpl.
    destruct (z <? 0) eqn:E; [lia | reflexivity].
  - now destruct v.
  - destruct v as [| | | f |]; try discriminate. simpl in Hr.
    apply negb_true_iff in Hr.
    unfold FloatNonZero_validate. simpl.
    rewrite sub_zero_ltb. unfold FloatNonZero_tolerance. now rewrite Hr.
  - destruct v as [| | | f |]; try discriminate. simpl in Hr.
    apply negb_true_iff in Hr.
    unfold FloatPositiveValue_validate. simpl. now rewrite Hr.
  - destruct v as [| | | f |]; try discriminate. simpl in Hr.
    pose proof Hr as [_ H1]%andb_true_iff.
    unfold FloatPercentage_validate. simpl.
    rewrite (leb_not_ltb _ _ H1). simpl. now rewrite Hr.
  - destruct v as [| | | f |]; try discriminate. simpl in Hr.
    apply negb_true_iff in Hr.
    unfold FloatMax24_validate, FloatMax24_tolerance. simpl. now rewrite Hr.
Qed.

(** X14. The validators without a unit, [HBName] apart, accept what they
    return: a value that satisfies the rule is returned as it is, so a
    value returned for an input that is not [None] can be set again and is
    stored unchanged. *)
Theorem validate_idempotent self name name' x old old' v :
  canonical_unit (cls self) = None -> cls self <> HBName ->
  (satisfies_rule (cls self) v = true -> validate self name v old = Ok v)
  /\ (is_None x = false -> validate self name x old = Ok v ->
      validate self name' v old' = Ok v).
Proof.
  intros Hu Hh. split.
  - now apply validate_rule_accepted.
  - intros Hx Hv. apply validate_rule_accepted; [assumption | assumption |].
    apply (validate_accepts self name x old v); [| assumption | assumption].
    intros Hc. rewrite Hc in Hu. discriminate.
Qed.

(** X15. [FloatNonZero] is stricter than [FloatPositiveValue], and
    [IntegerNonZero] than [IntegerPositiveValueOrZero]: what the first
    returns for an input that is not [None], the second returns too. *)
Theorem stricter_validators a b name name' x old old' v :
  (cls a = FloatNonZero /\ cls b = FloatPositiveValue)
  \/ (cls a = IntegerNonZero /\ cls b = IntegerPositiveValueOrZero) ->
  is_None x = false ->
  validate a name x old = Ok v -> validate b name' x old' = Ok v.
Proof.
  intros [[Ha Hb] | [Ha Hb]] Hx; unfold validate; rewrite Ha, Hb.
  - unfold FloatNonZero_validate, FloatPositiveValue_validate. rewrite Hx.
    intros (f & Hf & Hc)%coerce_then. rewrite (coerce_ok _ _ _ Hf).
    rewrite sub_zero_ltb in Hc.
    destruct (f <? FloatNonZero_tolerance)%float eqn:E; [discriminate |].
    now rewrite (not_below_tolerance_not_negative _ E).
  - unfold IntegerNonZero_validate, IntegerPositiveValueOrZero_validate. rewrite Hx.
    intros (z & Hz & Hc)%coerce_then. rewrite (coerce_ok _ _ _ Hz).
    destruct (z <? 1) eqn:E; [discriminate |].
    destruct (z <? 0) eqn:E0; [lia | exact Hc].
Qed.

(** X16. [UnitCost_KWH] does all that the plain unit validators do, for
    the unit COST/KWH, and drops the result: on an input that is not [None]
    it raises exactly when they would, and returns [None] where they would
    return the converted value. *)
Theorem UnitCost_KWH_drops_result self name x old :
  cls self = UnitCost_KWH -> is_None x = false ->
  validate self name x old =
    let* _ := Unit_validate "COST/KWH" self name x old in Ok VNone.
Proof.
  intros Hc Hx. unfold validate. rewrite Hc.
  unfold UnitCost_KWH_validate, Unit_validate. rewrite Hx.
  destruct (parse_input (py_str x)) as [[m u]|e]; [| reflexivity]. simpl.
  destruct (py_float m) as [f|e]; [| reflexivity]. simpl.
  now destruct (convert f (units_or u "COST/KWH") "COST/KWH").
Qed.
End DescriptorFacts.

(** ** clean_get and cleaner_get on arguments of any type *)

Section CleanGetAny.
Context {T : Type}.
Implicit Types (l : list T) (i : Z) (j : value) (d : T) (od : option T).

(** On a list and an integer index they are the typed functions. *)
Lemma clean_get_any_typed l i d od :
  clean_get_any (Some l) (VInt i) od = clean_get l i od
  /\ cleaner_get_any (Some l) (VInt i) d = cleaner_get l i d.
Proof. split; reflexivity. Qed.

Lemma subscript_not_index l j : is_index j = false -> subscript (Some l) j = Error TypeError.
Proof. now destruct j. Qed.

(** C6, as amended.  For every list and integer index: an index
    [0 <= i < len] returns the element at that index; an index outside
    [-len .. len - 1] returns element 0 of a non-empty list and the default
    of an empty one; and no exception escapes either variant.  Only
    [IndexError] is caught: with an index that is not an integer, or with
    [None] for the list, [TypeError] escapes both variants. *)
Theorem clean_get_any_contract l i d od :
  (0 <= i < Z.of_nat (length l) ->
     exists x, l !! Z.to_nat i = Some x /\
               clean_get_any (Some l) (VInt i) od = Ok (Some x) /\
               cleaner_get_any (Some l) (VInt i) d = Ok x)
  /\ (i < - Z.of_nat (length l) \/ Z.of_nat (length l) <= i ->
        clean_get_any (Some l) (VInt i) od
          = Ok (match l with x :: _ => Some x | [] => od end) /\
        cleaner_get_any (Some l) (VInt i) d
          = Ok (match l with x :: _ => x | [] => d end))
  /\ (exists r, clean_get_any (Some l) (VInt i) od = Ok r)
  /\ (exists r, cleaner_get_any (Some l) (VInt i) d = Ok r)
  /\ (forall j, is_index j = false ->
        clean_get_any (Some l) j od = Error TypeError /\
        cleaner_get_any (Some l) j d = Error TypeError)
  /\ (forall j,
        clean_get_any None j od = Error TypeError /\
        cleaner_get_any None j d = Error TypeError).
Proof.
  destruct (clean_get_any_typed l i d od) as [-> ->].
  destruct (clean_get_contract l i d od) as (Hin & Hout & Hr & Hr').
  repeat (split; [assumption |]).
  split.
  - intros j Hj. unfold clean_get_any, cleaner_get_any.
    now rewrite (subscript_not_index _ _ Hj).
  - intros j. unfold clean_get_any, cleaner_get_any. now destruct j.
Qed.
End CleanGetAny.

(** ** memoize on arguments of any type *)

Section MemoizeAnyFacts.
Context {A K V KW W : Type} `{Countable K}.
Implicit Types (key : A -> option K) (func : @function_any A K V KW W _ _)
  (h : @host K V W _ _) (args : A) (kwargs : KW).

(** X7. An exception is not cached.  When a memoized call raises, either
    the argument tuple is unhashable, the exception is the [TypeError] of
    the lookup in [sticky], the function has not run and nothing has
    changed; or the arguments were not in [sticky], the function ran once,
    the exception is its own, and the wrapper has written nothing:
    [sticky] and the session are as the function left them. *)
Theorem memoize_any_raise_not_cached key func h args kwargs e h1 :
  memoize_any key func args kwargs h = (Error e, h1) ->
  (key args = None /\ e = TypeError /\ h1 = h)
  \/ (exists k, key args = Some k
      /\ sticky h !! k = None
      /\ func args kwargs (sticky h, env h) = (Error e, (sticky h1, env h1))
      /\ calls h1 = S (calls h)).
Proof.
  unfold memoize_any, wrapper_any.
  destruct (key args) as [k|] eqn:Hk.
  - intros Hcall. right. exists k. split; [reflexivity |].
    exact (wrapper_raise_not_cached (fun _ => func args) h k kwargs e h1 Hcall).
  - intros [= <- <-]. left. repeat split.
Qed.
End MemoizeAnyFacts.

(** ** The properties at work, on the sample libraries *)

Import Sample.

Lemma input_to_int_contract_witness :
  input_to_int (VStr "") (VInt 9) = Ok (VInt 9)
  /\ input_to_int (VStr "2-A Second Type") VNone = Ok (VInt 2)
  /\ input_to_int (VStr "First Type") VNone = Error Exception_.
Proof.
  split; [| split].
  - apply (proj1 (input_to_int_contract (VStr "") (VInt 9))). reflexivity.
  - apply (proj1 (proj2 (input_to_int_contract (VStr "2-A Second Type") VNone))
             eq_refl "" "2" "-A Second Type"); reflexivity.
  - apply (proj2 (proj2 (input_to_int_contract (VStr "First Type") VNone))); reflexivity.
Defined.

(** [IntegerNonZero]: 5 is stored as 5. *)
Lemma set_stores_accepted_value_witness :
  let self := {| cls := IntegerNonZero; storage_name := "n"; default_value := VNone |} in
  exists v, (<["n" := VInt 5]> (∅ : gmap string value)) !! "n" = Some v
            /\ __get__ self (<["n" := VInt 5]> ∅) = Ok v
            /\ satisfies_rule IntegerNonZero v = true.
Proof.
  intros self.
  apply (set_stores_accepted_value self ∅ (<["n" := VInt 5]> ∅) (VInt 5)).
  - discriminate.
  - reflexivity.
  - reflexivity.
Defined.

(** C1 as stated fails on a set of [None]: with no default and nothing
    stored before, the set completes and stores [None], which is not a
    positive integer. *)
Lemma set_None_counterexample :
  let self := {| cls := IntegerNonZero; storage_name := "n"; default_value := VNone |} in
  __set__ self ∅ VNone = Ok (<["n" := VNone]> ∅)
  /\ (<["n" := VNone]> (∅ : gmap string value)) !! "n" = Some VNone
  /\ satisfies_rule IntegerNonZero VNone = false.
Proof. repeat split. Qed.

(** A default is stored as it is coerced, unchecked: [IntegerNonZero] with
    the default 0 stores 0 on a set of [None]. *)
Lemma set_None_stores_unchecked_default :
  let self := {| cls := IntegerNonZero; storage_name := "n"; default_value := VInt 0 |} in
  __set__ self ∅ VNone = Ok (<["n" := VInt 0]> ∅)
  /\ satisfies_rule IntegerNonZero (VInt 0) = false.
Proof. repeat split. Qed.

(** [UnitCost_KWH] stores [None] for the input "5". *)
Lemma UnitCost_KWH_set_stores_None :
  let self := {| cls := UnitCost_KWH; storage_name := "cost"; default_value := VNone |} in
  __set__ self ∅ (VStr "5") = Ok (<["cost" := VNone]> ∅)
  /\ satisfies_rule UnitCost_KWH VNone = false.
Proof. repeat split. Qed.

(** [IntegerNonZero]: [None] with the default "3" gives 3; [None] with a
    default that does not coerce gives the old value. *)
Lemma validate_None_fallback_witness :
  validate {| cls := IntegerNonZero; storage_name := "n"; default_value := VStr "3" |}
    "n" VNone VNone = Ok (VInt 3)
  /\ validate {| cls := Float; storage_name := "x"; default_value := VStr "abc" |}
       "x" VNone (VFloat 2.5) = Ok (VFloat 2.5)
  /\ validate {| cls := NotNone; storage_name := "x"; default_value := VInt 1 |}
       "x" VNone VNone = Error ValueError.
Proof.
  split; [| split].
  - apply (proj1 (validate_None_fallback
                    {| cls := IntegerNonZero; storage_name := "n"; default_value := VStr "3" |}
                    "n" VNone) (Ok (VInt 3))).
    reflexivity.
  - apply (proj1 (validate_None_fallback
                    {| cls := Float; storage_name := "x"; default_value := VStr "abc" |}
                    "x" (VFloat 2.5)) (Error ValueError)).
    reflexivity.
  - apply (proj2 (validate_None_fallback
                    {| cls := NotNone; storage_name := "x"; default_value := VInt 1 |}
                    "x" VNone)).
    reflexivity.
Defined.

(** C2 as stated fails where neither a usable default nor a previous value
    exists: [IntegerNonZero] returns [None], it does not raise. *)
Lemma validate_None_counterexample :
  let self := {| cls := IntegerNonZero; storage_name := "n"; default_value := VNone |} in
  py_int (default_value self) = Error TypeError
  /\ validate self "n" VNone VNone = Ok VNone
  /\ forall e, validate self "n" VNone VNone <> Error e.
Proof. repeat split. intros e. discriminate. Qed.

Lemma FloatNonZero_rejects_below_tolerance_witness :
  let self := {| cls := FloatNonZero; storage_name := "x"; default_value := VNone |} in
  validate self "x" (VFloat (-5)) VNone = Error ValueError
  /\ validate self "x" (VFloat 0.00005) VNone = Error ValueError
  /\ validate self "x" (VFloat 0.0001) VNone = Ok (VFloat 0.0001).
Proof.
  intros self. split; [| split].
  - apply (proj2 (proj2 (FloatNonZero_rejects_below_tolerance self "x"
                           (VFloat (-5)) VNone (-5)%float eq_refl eq_refl eq_refl))).
    reflexivity.
  - exact (proj1 (FloatNonZero_rejects_below_tolerance self "x"
                    (VFloat 0.00005) VNone 0.00005%float eq_refl eq_refl eq_refl)).
  - exact (proj1 (FloatNonZero_rejects_below_tolerance self "x"
                    (VFloat 0.0001) VNone 0.0001%float eq_refl eq_refl eq_refl)).
Defined.

Lemma FloatPercentage_rescales_then_checks_witness :
  let self := {| cls := FloatPercentage; storage_name := "p"; default_value := VNone |} in
  validate self "p" (VInt 50) VNone = Ok (VFloat 0.5)
  /\ validate self "p" (VFloat 100.0) VNone = Error ValueError
  /\ validate self "p" (VStr "25") VNone = Ok (VFloat 0.25).
Proof.
  intros self.
  pose proof (FloatPercentage_rescales_then_checks self "p" VNone eq_refl)
    as (Hgen & H50 & _ & _ & H100 & _).
  split; [exact H50 | split; [exact H100 |]].
  exact (Hgen (VStr "25") 25%float eq_refl eq_refl).
Defined.



(** ** The further properties at work *)

Import SampleTree.

Lemma clean_get_returns_an_element_witness :
  (exists x, x ∈ [10; 20; 30] /\ clean_get [10; 20; 30] 7 None = Ok (Some x)
             /\ cleaner_get [10; 20; 30] 7 0 = Ok x)
  /\ clean_get (@nil Z) 7 None = Ok None.
Proof.
  split.
  - apply (proj1 (clean_get_returns_an_element [10; 20; 30] 7 0 None)). discriminate.
  - apply (proj2 (clean_get_returns_an_element (@nil Z) 7 0 None)). reflexivity.
Defined.

(** A negative index, which the sample tree refuses, gives the first
    branch; on a tree without branches it gives the default. *)
Lemma clean_tree_get_never_raises_witness :
  clean_tree_get [[1; 2]; [3]] (-1) None = Ok (Some [1; 2])
  /\ clean_tree_get (@nil (list Z)) (-1) (Some [0]) = Ok (Some [0]).
Proof.
  split.
  - apply (proj1 (proj2 (proj2 (clean_tree_get_never_raises [[1; 2]; [3]] (-1) None)))
             Exception_ [1; 2]); reflexivity.
  - apply (proj2 (proj2 (proj2 (clean_tree_get_never_raises (@nil (list Z)) (-1) (Some [0]))))
             Exception_ IndexError); reflexivity.
Defined.

(** The sign of "-5" is not read. *)
Lemma input_to_int_truthy_witness :
  (exists n, 0 <= n /\ input_to_int (VStr "-5 apples") VNone = Ok (VInt n))
  /\ input_to_int (VStr "-5 apples") VNone = Ok (VInt 5).
Proof.
  split; [| reflexivity].
  exact (input_to_int_truthy (VStr "-5 apples") VNone eq_refl).
Defined.

(** After the counter has been memoized for the argument 0, a constant
    function memoized for the same argument returns the counter's value. *)
Lemma memoize_shared_between_functions_witness :
  let h := {| sticky := ∅; env := 0; calls := 0 |} in
  let constant : @function nat Z unit Z _ _ := fun _ _ s => (Ok 42, s) in
  let h1 := (memoize Sample.counter 0%nat tt h).2 in
  memoize constant 0%nat tt h1 = (Ok 0, h1).
Proof.
  intros h constant h1.
  apply (memoize_shared_between_functions Sample.counter constant h 0%nat tt tt 0 h1).
  vm_compute. reflexivity.
Defined.

Lemma memoize_keeps_entries_witness :
  let h := {| sticky := {[ 3 := 6 ]}; env := tt; calls := 0 |} in
  let h1 := (memoize Sample.scale 4 5 h).2 in
  sticky h1 !! 3 = Some 6 /\ sticky h1 !! 4 = Some 20.
Proof.
  intros h h1. split; [| vm_compute; reflexivity].
  apply (memoize_keeps_entries Sample.scale h 3 4 5 6 (Ok 20) h1).
  - intros a kw d w. reflexivity.
  - vm_compute. reflexivity.
  - vm_compute. reflexivity.
Defined.

Lemma set_then_get_witness :
  let width := {| cls := UnitM; storage_name := "width"; default_value := VNone |} in
  let count := {| cls := IntegerNonZero; storage_name := "count"; default_value := VNone |} in
  let instance : gmap string value := {[ "count" := VInt 2 ]} in
  let instance' := <["width" := VFloat (20 * 0.3048)]> instance in
  (exists v, validate width "width" (VStr "20 FT") VNone = Ok v
             /\ __get__ width instance' = Ok v)
  /\ __get__ count instance' = __get__ count instance.
Proof.
  intros width count instance instance'.
  assert (__set__ width instance (VStr "20 FT") = Ok instance') as Hset
    by (vm_compute; reflexivity).
  destruct (set_then_get width instance instance' (VStr "20 FT") Hset) as [Hget Hframe].
  split; [exact Hget |].
  apply Hframe. discriminate.
Defined.

Lemma set_None_keeps_previous_witness :
  let self := {| cls := IntegerNonZero; storage_name := "n"; default_value := VNone |} in
  __set__ self {[ "n" := VInt 5 ]} VNone = Ok {[ "n" := VInt 5 ]}.
Proof.
  intros self.
  apply (set_None_keeps_previous self {[ "n" := VInt 5 ]} (VInt 5)).
  - reflexivity.
  - intros w. discriminate.
  - discriminate.
Defined.


(** [int] raises [OverflowError] on an infinite float and [float] raises
    [ValueError] on "abc": both validators raise [ValueError]. *)
Lemma coercion_failure_is_ValueError_witness :
  validate {| cls := IntegerNonZero; storage_name := "n"; default_value := VNone |}
    "n" (VFloat infinity) VNone = Error ValueError
  /\ validate {| cls := FloatMax24; storage_name := "h"; default_value := VNone |}
       "h" (VStr "abc") VNone = Error ValueError.
Proof.
  split.
  - apply (proj1 (coercion_failure_is_ValueError
                    {| cls := IntegerNonZero; storage_name := "n"; default_value := VNone |}
                    "n" (VFloat infinity) VNone OverflowError eq_refl));
      reflexivity.
  - apply (proj2 (coercion_failure_is_ValueError
                    {| cls := FloatMax24; storage_name := "h"; default_value := VNone |}
                    "h" (VStr "abc") VNone ValueError eq_refl));
      reflexivity.
Defined.

(** The sample converter does not know yards: its exception escapes; the
    magnitude "abc" does not coerce: [ValueError]. *)
Lemma unit_validate_errors_witness :
  let self := {| cls := UnitM; storage_name := "length"; default_value := VNone |} in
  validate self "length" (VStr "20 YD") VNone = Error Exception_
  /\ validate self "length" (VStr "abc M") VNone = Error ValueError.
Proof.
  intros self.
  pose proof (unit_validate_errors self "length" (VStr "20 YD") VNone "M" eq_refl eq_refl)
    as (_ & _ & Hconv).
  pose proof (unit_validate_errors self "length" (VStr "abc M") VNone "M" eq_refl eq_refl)
    as (_ & Hfloat & _).
  split.
  - apply (Hconv (VStr "20") (Some "YD") 20%float Exception_); reflexivity.
  - apply (Hfloat (VStr "abc") (Some "M") ValueError); reflexivity.
Defined.

(** 50 is stored as 0.5, and 0.5 set again is stored as 0.5. *)
Lemma validate_idempotent_witness :
  let self := {| cls := FloatPercentage; storage_name := "p"; default_value := VNone |} in
  validate self "p" (VInt 50) VNone = Ok (VFloat 0.5)
  /\ validate self "p" (VFloat 0.5) (VFloat 0.5) = Ok (VFloat 0.5).
Proof.
  intros self. split; [reflexivity |].
  apply (proj2 (validate_idempotent self "p" "p" (VInt 50) VNone (VFloat 0.5) (VFloat 0.5)
                  eq_refl ltac:(discriminate)));
    reflexivity.
Defined.

Lemma stricter_validators_witness :
  validate {| cls := FloatPositiveValue; storage_name := "b"; default_value := VNone |}
    "b" (VInt 3) VNone = Ok (VFloat 3).
Proof.
  apply (stricter_validators
           {| cls := FloatNonZero; storage_name := "a"; default_value := VNone |}
           {| cls := FloatPositiveValue; storage_name := "b"; default_value := VNone |}
           "a" "b" (VInt 3) VNone VNone (VFloat 3)).
  - left. split; reflexivity.
  - reflexivity.
  - reflexivity.
Defined.

Lemma UnitCost_KWH_drops_result_witness :
  let self := {| cls := UnitCost_KWH; storage_name := "cost"; default_value := VNone |} in
  Unit_validate "COST/KWH" self "cost" (VStr "5") VNone = Ok (VFloat 5)
  /\ validate self "cost" (VStr "5") VNone = Ok VNone
  /\ validate self "cost" (VStr "abc") VNone = Error ValueError.
Proof.
  intros self. split; [reflexivity | split].
  - rewrite (UnitCost_KWH_drops_result self "cost" (VStr "5") VNone eq_refl eq_refl).
    reflexivity.
  - rewrite (UnitCost_KWH_drops_result self "cost" (VStr "abc") VNone eq_refl eq_refl).
    reflexivity.
Defined.

(** C6 as stated fails on inputs that are not a list and an integer: the
    handlers catch [IndexError] alone, so the [TypeError] of [None[0]] and
    of an index 0.5 escapes. *)
Lemma clean_get_TypeError_counterexample :
  clean_get_any (@None (list Z)) (VInt 0) (Some 5) = Error TypeError
  /\ cleaner_get_any (Some [1; 2]) (VFloat 0.5) 5 = Error TypeError.
Proof. split; reflexivity. Qed.

Lemma clean_get_any_contract_witness :
  clean_get_any (Some [10; 20; 30]) (VInt 2) None = Ok (Some 30)
  /\ clean_get_any (Some [10; 20; 30]) (VInt 7) None = Ok (Some 10)
  /\ cleaner_get_any (Some (@nil Z)) (VInt 7) 5 = Ok 5
  /\ clean_get_any (Some [10; 20; 30]) (VStr "1") None = Error TypeError.
Proof.
  pose proof (clean_get_any_contract [10; 20; 30] 2 0 None) as (Hin & _).
  pose proof (clean_get_any_contract [10; 20; 30] 7 0 None) as (_ & Hout & _ & _ & Hty & _).
  pose proof (clean_get_any_contract (@nil Z) 7 5 None) as (_ & Hempty & _).
  split; [| split; [| split]].
  - destruct Hin as (x & Hx & Hget & _); [simpl; lia |].
    injection Hx as <-. exact Hget.
  - apply Hout. simpl. lia.
  - apply Hempty. simpl. lia.
  - apply (Hty (VStr "1")). reflexivity.
Defined.

(** A list argument is unhashable: the call raises [TypeError] and the
    function does not run.  A negative number is not cached: the function
    runs and its [ValueError] escapes. *)
Lemma memoize_any_raise_not_cached_witness :
  let h : @host Z Z unit _ _ := {| sticky := ∅; env := tt; calls := 0 |} in
  (memoize_any SampleArgs.key SampleArgs.double (SampleArgs.Lst [1]) tt h
     = (Error TypeError, h))
  /\ (let h1 := (memoize_any SampleArgs.key SampleArgs.double (SampleArgs.Num (-1)) tt h).2 in
      SampleArgs.double (SampleArgs.Num (-1)) tt (sticky h, env h)
        = (Error ValueError, (sticky h1, env h1))
      /\ calls h1 = 1%nat).
Proof.
  intros h. split; [reflexivity |]. intros h1.
  destruct (memoize_any_raise_not_cached SampleArgs.key SampleArgs.double h
              (SampleArgs.Num (-1)) tt ValueError h1)
    as [(Hk & _) | (k & _ & _ & Hfunc & Hcalls)].
  - vm_compute. reflexivity.
  - discriminate Hk.
  - split; assumption.
Defined.
